(** * Forked Alertmanager coordinators (package [remote])

    A verification development for the two coordinators that sit in front of
    a local ("internal") and a remote Alertmanager:

    - [RemoteSecondaryForkedAlertmanager] : the internal Alertmanager is the
      authority, the remote one is synchronised in the background;
    - [RemotePrimaryForkedAlertmanager]   : the remote Alertmanager is the
      authority.

    The Go code is embedded shallowly, as programs of a state-and-panic
    monad.

    - Alertmanagers are objects in a store, reached through references; a
      call through a reference the store does not bind is Go's call through
      a nil interface and panics, and so does a call of the nil logger.
    - What an Alertmanager does is not the coordinators' business: an object
      answers a method with a value and its next state ([Implements]), and
      the theorems hold for every such object.
    - The objects behind [internal] and behind [remote] live in two stores:
      they are different objects, as in every test.
    - Every call made through [internal] or [remote] is recorded together
      with the value it returned, so that "calls exactly once", "receives no
      call" and "returns an error" are statements about the records.
    - Instants lie on one time line and the clock is an oracle: its n-th
      reading yields [wall n].

    The second part is the InfluxQL query path of the InfluxDB data source
    (package [influxql]: [Query], [createRequest], [execute]), embedded in
    the same way over the functions of the libraries it calls. *)

From Stdlib Require Import ZArith Lia.
From stdpp Require Import base option list strings gmap.

Open Scope string_scope.
Open Scope list_scope.
Open Scope Z_scope.

(** ** Go basics *)

(** A Go [error]: [None] is [nil], [Some msg] an error with that message. *)
Definition error : Type := option string.

(** A Go pointer [*T] that the coordinators only pass on: [None] is [nil]. *)
Definition ptr (T : Type) : Type := option T.

(** A reference to an object in the store (the dynamic value of an
    interface-typed field). *)
Definition loc : Type := nat.

(** ** Package [time]: the part the coordinator uses *)

Module time.

(** An instant, in nanoseconds on one time line (Unix epoch = 0). *)
Definition Time : Type := Z.

(** A [time.Duration] is an int64 count of nanoseconds. *)
Definition Duration : Type := Z.

Definition minDuration : Duration := - 2 ^ 63.
Definition maxDuration : Duration := 2 ^ 63 - 1.

Definition Second : Duration := 1000000000.
Definition Minute : Duration := 60 * Second.

(** The zero [time.Time]: January 1, year 1, 00:00:00 UTC, which is
    62135596800 seconds before the Unix epoch. *)
Definition zero : Time := - 62135596800 * Second.

(** [t.Sub(u)]: the duration t-u; "if the result exceeds the maximum (or
    minimum) value that can be stored in a Duration, the maximum (or
    minimum) duration will be returned". *)
Definition Sub (t u : Time) : Duration :=
  if maxDuration <? t - u then maxDuration
  else if t - u <? minDuration then minDuration
  else t - u.

End time.

(** ** Package [log]: a structured logger *)

Module log.

(** The value of a key/value pair given to the logger. *)
Inductive Value : Type :=
| VErr (e : string)
| VTime (t : time.Time).

Inductive Level : Type := LvlDebug | LvlError.

(** One call of a logger method. *)
Record Entry : Type := {
  level : Level;
  msg : string;
  ctx : list (string * Value)
}.

(** A [log.Logger] is an interface value: [None] is the nil logger,
    [Some name] a logger. *)
Definition Logger : Type := option string.

End log.

(** ** The Alertmanager capability contracts *)

(** The payload types of the API.  Their declarations live in packages
    [context], [models], [apimodels] and [notifier]; the coordinators pass
    these values on without looking into them. *)
Class ApiTypes : Type := {
  context_Context : Type;
  AlertConfiguration : Type;
  PostableUserConfig : Type;
  GettableStatus : Type;
  PostableSilence : Type;
  GettableSilence : Type;
  GettableSilences : Type;
  GettableAlerts : Type;
  AlertGroups : Type;
  PostableAlerts : Type;
  Receiver : Type;
  TestReceiversConfigBodyParams : Type;
  TestReceiversResult : Type;
  TestTemplatesConfigBodyParams : Type;
  TestTemplatesResults : Type
}.

Module notifier.
Section Contract.
Context {Api : ApiTypes}.

(** [notifier.Alertmanager]: one constructor per method of the interface,
    indexed by the method's result type. *)
Inductive Alertmanager : Type -> Type :=
| ApplyConfig (ctx : context_Context) (config : ptr AlertConfiguration)
    : Alertmanager error
| SaveAndApplyConfig (ctx : context_Context) (config : ptr PostableUserConfig)
    : Alertmanager error
| SaveAndApplyDefaultConfig (ctx : context_Context)
    : Alertmanager error
| GetStatus
    : Alertmanager GettableStatus
| CreateSilence (ctx : context_Context) (silence : ptr PostableSilence)
    : Alertmanager (string * error)
| DeleteSilence (ctx : context_Context) (id : string)
    : Alertmanager error
| GetSilence (ctx : context_Context) (id : string)
    : Alertmanager (GettableSilence * error)
| ListSilences (ctx : context_Context) (filter : list string)
    : Alertmanager (GettableSilences * error)
| GetAlerts (ctx : context_Context) (active silenced inhibited : bool)
    (filter : list string) (receiver : string)
    : Alertmanager (GettableAlerts * error)
| GetAlertGroups (ctx : context_Context) (active silenced inhibited : bool)
    (filter : list string) (receiver : string)
    : Alertmanager (AlertGroups * error)
| PutAlerts (ctx : context_Context) (alerts : PostableAlerts)
    : Alertmanager error
| GetReceivers (ctx : context_Context)
    : Alertmanager (list Receiver * error)
| TestReceivers (ctx : context_Context) (c : TestReceiversConfigBodyParams)
    : Alertmanager (ptr TestReceiversResult * error)
| TestTemplate (ctx : context_Context) (c : TestTemplatesConfigBodyParams)
    : Alertmanager (ptr TestTemplatesResults * error)
| CleanUp
    : Alertmanager unit
| StopAndWait
    : Alertmanager unit
| Ready
    : Alertmanager bool.

End Contract.
End notifier.

Section RemoteContract.
Context {Api : ApiTypes}.

(** [remoteAlertmanager]: the embedded [notifier.Alertmanager] and the two
    reconciliation methods. *)
Inductive remoteAlertmanager : Type -> Type :=
| Base {T : Type} (m : notifier.Alertmanager T) : remoteAlertmanager T
| CompareAndSendConfiguration (ctx : context_Context)
    (config : ptr AlertConfiguration) : remoteAlertmanager error
| CompareAndSendState (ctx : context_Context) : remoteAlertmanager error.

End RemoteContract.

(** An implementation of an interface: objects with state [S] answer every
    method of [Iface] with a value and their next state. *)
Class Implements (Iface : Type -> Type) (S : Type) : Type :=
  invoke : forall T : Type, Iface T -> S -> T * S.
Arguments invoke {Iface S _ T} m s.

(** One recorded call: the object called, the method with its arguments and
    the value the call returned. *)
Record Called (Iface : Type -> Type) : Type := Call {
  target : loc;
  ret_type : Type;
  method : Iface ret_type;
  returned : ret_type
}.
Arguments Call {Iface} target {ret_type} method returned.
Arguments target {Iface} c.
Arguments ret_type {Iface} c.
Arguments method {Iface} c.
Arguments returned {Iface} c.

(** ** The machine: a coordinator and the world around it *)

Section Machine.
Context {Api : ApiTypes}.
(** [C]: the coordinator's struct; [I], [R]: the states of the objects
    behind [internal] and [remote]. *)
Context {C I R : Type}.
Context `{!Implements notifier.Alertmanager I}.
Context `{!Implements remoteAlertmanager R}.

Record Sys : Type := MkSys {
  self : C;                                      (* the receiver, [*fam] *)
  internals : gmap loc I;                        (* notifier.Alertmanager objects *)
  remotes : gmap loc R;                          (* remoteAlertmanager objects *)
  icalls : list (Called notifier.Alertmanager);  (* calls through [internal] *)
  rcalls : list (Called remoteAlertmanager);     (* calls through [remote] *)
  logged : list (string * log.Entry);            (* logger name, entry *)
  reads : nat                                    (* clock readings so far *)
}.

(** State and panic: [None] is a Go panic (the process dies). *)
Definition M (A : Type) : Type := Sys -> option (A * Sys).

Definition ret {A : Type} (a : A) : M A := fun s => Some (a, s).

Definition bind {A B : Type} (c : M A) (k : A -> M B) : M B :=
  fun s => match c s with
           | Some (a, s') => k a s'
           | None => None
           end.

(** [*fam]: read the receiver. *)
Definition this : M C := fun s => Some (self s, s).

(** [*fam = c]: overwrite the receiver. *)
Definition store (c : C) : M unit :=
  fun s => Some (tt, MkSys c (internals s) (remotes s) (icalls s) (rcalls s)
                       (logged s) (reads s)).

(** A method call through a [notifier.Alertmanager] reference. *)
Definition call_internal (l : loc) {T : Type} (m : notifier.Alertmanager T) : M T :=
  fun s => match internals s !! l with
           | None => None
           | Some o =>
               let '(v, o') := invoke m o in
               Some (v, MkSys (self s) (<[l := o']> (internals s)) (remotes s)
                          (icalls s ++ [Call l m v]) (rcalls s)
                          (logged s) (reads s))
           end.

(** A method call through a [remoteAlertmanager] reference. *)
Definition call_remote (l : loc) {T : Type} (m : remoteAlertmanager T) : M T :=
  fun s => match remotes s !! l with
           | None => None
           | Some o =>
               let '(v, o') := invoke m o in
               Some (v, MkSys (self s) (internals s) (<[l := o']> (remotes s))
                          (icalls s) (rcalls s ++ [Call l m v])
                          (logged s) (reads s))
           end.

(** A call of a logger method; the nil logger panics. *)
Definition emit (lg : log.Logger) (lvl : log.Level) (msg : string)
    (ctx : list (string * log.Value)) : M unit :=
  fun s => match lg with
           | None => None
           | Some name =>
               Some (tt, MkSys (self s) (internals s) (remotes s) (icalls s)
                           (rcalls s)
                           (logged s ++ [(name, log.Build_Entry lvl msg ctx)])
                           (reads s))
           end.

Definition log_Error (lg : log.Logger) := emit lg log.LvlError.
Definition log_Debug (lg : log.Logger) := emit lg log.LvlDebug.

(** The clock: its n-th reading is [wall n]. *)
Variable wall : nat -> time.Time.

(** [time.Now()]. *)
Definition time_Now : M time.Time :=
  fun s => Some (wall (reads s),
                 MkSys (self s) (internals s) (remotes s) (icalls s) (rcalls s)
                   (logged s) (S (reads s))).

(** [time.Since(t)] is [time.Now().Sub(t)]. *)
Definition time_Since (t : time.Time) : M time.Duration :=
  bind time_Now (fun now => ret (time.Sub now t)).

End Machine.

Arguments Sys {_} C I R.
Arguments M {_} C I R A.
Arguments MkSys {_ C I R} self internals remotes icalls rcalls logged reads.

Declare Scope go_scope.
Delimit Scope go_scope with go.
Notation "x <- c ;; k" := (bind c (fun x => k))
  (at level 100, c at next level, right associativity) : go_scope.
Notation "c ;; k" := (bind c (fun _ => k))
  (at level 100, right associativity) : go_scope.
Open Scope go_scope.

(** ** The secondary-mode coordinator *)

Record RemoteSecondaryForkedAlertmanager : Type := {
  log : log.Logger;
  internal : loc;               (* notifier.Alertmanager *)
  remote : loc;                 (* remoteAlertmanager *)
  lastSync : time.Time;
  syncInterval : time.Duration
}.

Record RemoteSecondaryConfig : Type := {
  (* SyncInterval determines how often we should attempt to synchronize
     state and configuration on the external Alertmanager. *)
  SyncInterval : time.Duration;
  Logger : log.Logger
}.

Definition Validate (c : RemoteSecondaryConfig) : error :=
  match Logger c with
  | None => Some "logger cannot be nil"
  | Some _ => None
  end.

(** The Go function returns a pointer to the new coordinator and an error;
    [None] in the first component is the nil pointer.  The struct literal
    leaves [lastSync] at the zero [time.Time]. *)
Definition NewRemoteSecondaryForkedAlertmanager (cfg : RemoteSecondaryConfig)
    (internal remote : loc) : option RemoteSecondaryForkedAlertmanager * error :=
  match Validate cfg with
  | Some err => (None, Some err)
  | None =>
      (Some {| log := Logger cfg;
               internal := internal;
               remote := remote;
               lastSync := time.zero;
               syncInterval := SyncInterval cfg |},
       None)
  end.

Module RemoteSecondary.
Section Methods.
Context {Api : ApiTypes}.
Context {I R : Type}.
Context `{!Implements notifier.Alertmanager I}.
Context `{!Implements remoteAlertmanager R}.
Variable wall : nat -> time.Time.

Local Abbreviation Go := (M RemoteSecondaryForkedAlertmanager I R).

(** [fam.lastSync = t]. *)
Definition set_lastSync (t : time.Time) : Go unit :=
  fam <- this ;;
  store {| log := log fam;
           internal := internal fam;
           remote := remote fam;
           lastSync := t;
           syncInterval := syncInterval fam |}.

(** The body of the goroutine that [ApplyConfig] starts: figure out if the
    external Alertmanager needs a sync. *)
Definition syncRoutine (ctx : context_Context) (config : ptr AlertConfiguration)
    : Go unit :=
  fam <- this ;;
  (* If the Alertmanager has not been marked as "ready" yet, delegate the
     call to the remote Alertmanager. *)
  ready <- call_remote (remote fam) (Base notifier.Ready) ;;
  if negb ready then
    err <- call_remote (remote fam) (Base (notifier.ApplyConfig ctx config)) ;;
    match err with
    | Some e =>
        log_Error (log fam) "Error applying config to the remote Alertmanager"
          [("err", log.VErr e)]
    | None =>
        now <- time_Now wall ;;
        set_lastSync now
    end
  else
    (* If the Alertmanager was marked as ready but the sync interval has
       elapsed, sync the Alertmanagers. *)
    since <- time_Since wall (lastSync fam) ;;
    if syncInterval fam <=? since then
      log_Debug (log fam)
        "Syncing configuration and state with the remote Alertmanager"
        [("lastSync", log.VTime (lastSync fam))] ;;
      cfgErr <- call_remote (remote fam) (CompareAndSendConfiguration ctx config) ;;
      match cfgErr with
      | Some e =>
          log_Error (log fam)
            "Unable to upload the configuration to the remote Alertmanager"
            [("err", log.VErr e)]
      | None => ret tt
      end ;;
      stateErr <- call_remote (remote fam) (CompareAndSendState ctx) ;;
      match stateErr with
      | Some e =>
          log_Error (log fam)
            "Unable to upload the state to the remote Alertmanager"
            [("err", log.VErr e)]
      | None => ret tt
      end ;;
      log_Debug (log fam)
        "Finished syncing configuration and state with the remote Alertmanager"
        [] ;;
      match cfgErr, stateErr with
      | None, None =>
          now <- time_Now wall ;;
          set_lastSync now
      | _, _ => ret tt
      end
    else ret tt.

(** [ApplyConfig] will only log errors for the remote Alertmanager and
    ensure we delegate the call to the internal Alertmanager.

    The goroutine is started first and joined by [wg.Wait()] before the
    return.  It works on [fam.remote], [fam.log], [fam.lastSync] and the
    clock; the caller's thread works on [fam.internal] only.  The model runs
    the goroutine at the point where it is started; [ApplyConfig_joined]
    runs it at the point where it is joined, and the two are shown equal
    below. *)
Definition ApplyConfig (ctx : context_Context) (config : ptr AlertConfiguration)
    : Go error :=
  syncRoutine ctx config ;;
  fam <- this ;;
  err <- call_internal (internal fam) (notifier.ApplyConfig ctx config) ;;
  ret err.

Definition ApplyConfig_joined (ctx : context_Context)
    (config : ptr AlertConfiguration) : Go error :=
  fam <- this ;;
  err <- call_internal (internal fam) (notifier.ApplyConfig ctx config) ;;
  syncRoutine ctx config ;;
  ret err.

(** [SaveAndApplyConfig] is only called on the internal Alertmanager when
    running in remote secondary mode. *)
Definition SaveAndApplyConfig (ctx : context_Context)
    (config : ptr PostableUserConfig) : Go error :=
  fam <- this ;;
  call_internal (internal fam) (notifier.SaveAndApplyConfig ctx config).

(** [SaveAndApplyDefaultConfig] is only called on the internal Alertmanager
    when running in remote secondary mode. *)
Definition SaveAndApplyDefaultConfig (ctx : context_Context) : Go error :=
  fam <- this ;;
  call_internal (internal fam) (notifier.SaveAndApplyDefaultConfig ctx).

Definition GetStatus : Go GettableStatus :=
  fam <- this ;;
  call_internal (internal fam) notifier.GetStatus.

Definition CreateSilence (ctx : context_Context) (silence : ptr PostableSilence)
    : Go (string * error) :=
  fam <- this ;;
  call_internal (internal fam) (notifier.CreateSilence ctx silence).

Definition DeleteSilence (ctx : context_Context) (id : string) : Go error :=
  fam <- this ;;
  call_internal (internal fam) (notifier.DeleteSilence ctx id).

Definition GetSilence (ctx : context_Context) (id : string)
    : Go (GettableSilence * error) :=
  fam <- this ;;
  call_internal (internal fam) (notifier.GetSilence ctx id).

Definition ListSilences (ctx : context_Context) (filter : list string)
    : Go (GettableSilences * error) :=
  fam <- this ;;
  call_internal (internal fam) (notifier.ListSilences ctx filter).

Definition GetAlerts (ctx : context_Context) (active silenced inhibited : bool)
    (filter : list string) (receiver : string) : Go (GettableAlerts * error) :=
  fam <- this ;;
  call_internal (internal fam)
    (notifier.GetAlerts ctx active silenced inhibited filter receiver).

Definition GetAlertGroups (ctx : context_Context)
    (active silenced inhibited : bool) (filter : list string)
    (receiver : string) : Go (AlertGroups * error) :=
  fam <- this ;;
  call_internal (internal fam)
    (notifier.GetAlertGroups ctx active silenced inhibited filter receiver).

Definition PutAlerts (ctx : context_Context) (alerts : PostableAlerts)
    : Go error :=
  fam <- this ;;
  call_internal (internal fam) (notifier.PutAlerts ctx alerts).

Definition GetReceivers (ctx : context_Context) : Go (list Receiver * error) :=
  fam <- this ;;
  call_internal (internal fam) (notifier.GetReceivers ctx).

Definition TestReceivers (ctx : context_Context)
    (c : TestReceiversConfigBodyParams)
    : Go (ptr TestReceiversResult * error) :=
  fam <- this ;;
  call_internal (internal fam) (notifier.TestReceivers ctx c).

Definition TestTemplate (ctx : context_Context)
    (c : TestTemplatesConfigBodyParams)
    : Go (ptr TestTemplatesResults * error) :=
  fam <- this ;;
  call_internal (internal fam) (notifier.TestTemplate ctx c).

Definition CleanUp : Go unit :=
  (* No cleanup to do in the remote Alertmanager. *)
  fam <- this ;;
  call_internal (internal fam) notifier.CleanUp.

Definition StopAndWait : Go unit :=
  fam <- this ;;
  call_internal (internal fam) notifier.StopAndWait ;;
  call_remote (remote fam) (Base notifier.StopAndWait).

Definition Ready : Go bool :=
  (* We only care about the internal Alertmanager being ready. *)
  fam <- this ;;
  call_internal (internal fam) notifier.Ready.

(** The coordinator is itself a [notifier.Alertmanager]: the method that
    answers each method of the interface. *)
Definition serve {T : Type} (m : notifier.Alertmanager T) : Go T :=
  match m in notifier.Alertmanager T return Go T with
  | notifier.ApplyConfig ctx config => ApplyConfig ctx config
  | notifier.SaveAndApplyConfig ctx config => SaveAndApplyConfig ctx config
  | notifier.SaveAndApplyDefaultConfig ctx => SaveAndApplyDefaultConfig ctx
  | notifier.GetStatus => GetStatus
  | notifier.CreateSilence ctx silence => CreateSilence ctx silence
  | notifier.DeleteSilence ctx id => DeleteSilence ctx id
  | notifier.GetSilence ctx id => GetSilence ctx id
  | notifier.ListSilences ctx filter => ListSilences ctx filter
  | notifier.GetAlerts ctx a s i f r => GetAlerts ctx a s i f r
  | notifier.GetAlertGroups ctx a s i f r => GetAlertGroups ctx a s i f r
  | notifier.PutAlerts ctx alerts => PutAlerts ctx alerts
  | notifier.GetReceivers ctx => GetReceivers ctx
  | notifier.TestReceivers ctx c => TestReceivers ctx c
  | notifier.TestTemplate ctx c => TestTemplate ctx c
  | notifier.CleanUp => CleanUp
  | notifier.StopAndWait => StopAndWait
  | notifier.Ready => Ready
  end.

End Methods.
End RemoteSecondary.

(** ** The primary-mode coordinator *)

Module RemotePrimary.

(** Modelled from the spec: the struct of the primary-mode coordinator, whose
    source file is not among the sources (its tests are).  "Owns the same
    two engine references and no additional mutable state". *)
Record RemotePrimaryForkedAlertmanager : Type := {
  internal : loc;               (* notifier.Alertmanager *)
  remote : loc                  (* remoteAlertmanager *)
}.

(** Modelled from the spec: the constructor of the primary-mode coordinator,
    missing with the struct.  "Both coordinators are constructed from the two
    engine references"; the tests call it with the two mocks and get no
    error value back. *)
Definition NewRemotePrimaryForkedAlertmanager (internal remote : loc)
    : RemotePrimaryForkedAlertmanager :=
  {| internal := internal; remote := remote |}.

Section Methods.
Context {Api : ApiTypes}.
Context {I R : Type}.
Context `{!Implements notifier.Alertmanager I}.
Context `{!Implements remoteAlertmanager R}.

Local Abbreviation Go := (M RemotePrimaryForkedAlertmanager I R).

(** Modelled from the spec: the missing method [Ready] of the primary-mode
    coordinator.  "Returns true only if BOTH engines report ready"; the
    test expects one [Ready] call on each mock when both are ready. *)
Definition Ready : Go bool :=
  fam <- this ;;
  i <- call_internal (internal fam) notifier.Ready ;;
  r <- call_remote (remote fam) (Base notifier.Ready) ;;
  ret (i && r).

(** Modelled from the spec: the missing method [CleanUp] of the primary-mode
    coordinator.  "Delegates to the local engine only". *)
Definition CleanUp : Go unit :=
  fam <- this ;;
  call_internal (internal fam) notifier.CleanUp.

(** Modelled from the spec: the missing method [StopAndWait] of the
    primary-mode coordinator.  "Stops both engines unconditionally, same as
    4.1", where it is "local first, then remote". *)
Definition StopAndWait : Go unit :=
  fam <- this ;;
  call_internal (internal fam) notifier.StopAndWait ;;
  call_remote (remote fam) (Base notifier.StopAndWait).

(** Modelled from the spec: the remaining missing methods of the
    primary-mode coordinator, one per method of [notifier.Alertmanager].
    "Delegation target flips for all business operations (status, silence
    CRUD, alert/alert-group queries, push alerts, receivers,
    template/receiver tests, save-and-apply[-default]-configuration,
    Apply-configuration) to the remote engine, returning its result verbatim
    with no background sync". *)
Definition serve {T : Type} (m : notifier.Alertmanager T) : Go T :=
  match m in notifier.Alertmanager T return Go T with
  | notifier.CleanUp => CleanUp
  | notifier.StopAndWait => StopAndWait
  | notifier.Ready => Ready
  | m' => fam <- this ;; call_remote (remote fam) (Base m')
  end.

End Methods.
End RemotePrimary.

(** ** Vocabulary of the statements *)

Section Vocabulary.
Context {Api : ApiTypes}.
Context {I R : Type}.
Context `{!Implements notifier.Alertmanager I}.
Context `{!Implements remoteAlertmanager R}.
Variable wall : nat -> time.Time.

Local Abbreviation Secondary := (Sys RemoteSecondaryForkedAlertmanager I R).
Local Abbreviation Primary := (Sys RemotePrimary.RemotePrimaryForkedAlertmanager I R).

(** The secondary coordinator of [s] is wired: its logger is the logger
    [name] (so not nil), its [internal] reference is bound to the object [i]
    and its [remote] reference to the object [r]. *)
Definition wired (s : Secondary) (name : string) (i : I) (r : R) : Prop :=
  log (self s) = Some name /\
  internals s !! internal (self s) = Some i /\
  remotes s !! remote (self s) = Some r.

(** The same for the primary coordinator, which has no logger. *)
Definition wired_primary (s : Primary) (i : I) (r : R) : Prop :=
  internals s !! RemotePrimary.internal (self s) = Some i /\
  remotes s !! RemotePrimary.remote (self s) = Some r.

(** What [time.Since(fam.lastSync)] yields when it is evaluated next. *)
Definition sinceLastSync (s : Secondary) : time.Duration :=
  time.Sub (wall (reads s)) (lastSync (self s)).

(** [fam] after the assignment [fam.lastSync = t]. *)
Definition with_lastSync (fam : RemoteSecondaryForkedAlertmanager) (t : time.Time)
    : RemoteSecondaryForkedAlertmanager :=
  {| log := log fam; internal := internal fam; remote := remote fam;
     lastSync := t; syncInterval := syncInterval fam |}.

(** What the logger [name] has received when the two uploads are over. *)
Definition sync_log (name : string) (last : time.Time) (cfgErr stateErr : error)
    : list (string * log.Entry) :=
  [(name, log.Build_Entry log.LvlDebug
            "Syncing configuration and state with the remote Alertmanager"
            [("lastSync", log.VTime last)])] ++
  match cfgErr with
  | None => []
  | Some e =>
      [(name, log.Build_Entry log.LvlError
                "Unable to upload the configuration to the remote Alertmanager"
                [("err", log.VErr e)])]
  end ++
  match stateErr with
  | None => []
  | Some e =>
      [(name, log.Build_Entry log.LvlError
                "Unable to upload the state to the remote Alertmanager"
                [("err", log.VErr e)])]
  end ++
  [(name, log.Build_Entry log.LvlDebug
            "Finished syncing configuration and state with the remote Alertmanager"
            [])].

(** The clock does not run backwards, and it shows a time after the zero
    [time.Time]. *)
Definition monotone : Prop := forall n m : nat, (n <= m)%nat -> wall n <= wall m.
Definition after_zero : Prop := time.zero <= wall 0.

(** [s2] is a later state of the same coordinator with no [ApplyConfig] in
    between: the coordinator's fields are those of [s1] and the clock has
    not been read fewer times.  The Alertmanagers, the records and the
    bindings of the store may have changed in any way. *)
Definition later (s1 s2 : Secondary) : Prop :=
  self s2 = self s1 /\ (reads s1 <= reads s2)%nat.

(** The states a secondary coordinator can be in: it was built by the
    constructor, in any world; its methods were called; the world around it
    moved on. *)
Inductive reachable : Secondary -> Prop :=
| reach_new (cfg : RemoteSecondaryConfig) (internal remote : loc)
    (fam : RemoteSecondaryForkedAlertmanager) (s : Secondary) :
    NewRemoteSecondaryForkedAlertmanager cfg internal remote = (Some fam, None) ->
    self s = fam ->
    reachable s
| reach_serve (s s' : Secondary) (T : Type) (m : notifier.Alertmanager T) (v : T) :
    reachable s ->
    RemoteSecondary.serve wall m s = Some (v, s') ->
    reachable s'
| reach_later (s s' : Secondary) :
    reachable s ->
    later s s' ->
    reachable s'.

(** The methods of the secondary coordinator other than [ApplyConfig] and
    [StopAndWait], and other than [ApplyConfig] alone. *)
Definition local_only {T : Type} (m : notifier.Alertmanager T) : bool :=
  match m with
  | notifier.ApplyConfig _ _ => false
  | notifier.StopAndWait => false
  | _ => true
  end.

Definition not_ApplyConfig {T : Type} (m : notifier.Alertmanager T) : bool :=
  match m with
  | notifier.ApplyConfig _ _ => false
  | _ => true
  end.

(** The business operations of the primary coordinator: every method but
    [CleanUp], [StopAndWait] and [Ready]. *)
Definition business {T : Type} (m : notifier.Alertmanager T) : bool :=
  match m with
  | notifier.CleanUp => false
  | notifier.StopAndWait => false
  | notifier.Ready => false
  | _ => true
  end.

End Vocabulary.

(** ** Test doubles

    The tests drive the coordinators with generated mocks that return what
    they were told to return.  [Mock.Double] is such an object: it answers
    from a script and counts the calls it received. *)

Module Mock.

Definition api : ApiTypes := {|
  context_Context := unit;
  AlertConfiguration := unit;
  PostableUserConfig := unit;
  GettableStatus := string;
  PostableSilence := unit;
  GettableSilence := string;
  GettableSilences := list string;
  GettableAlerts := list string;
  AlertGroups := list string;
  PostableAlerts := list string;
  Receiver := string;
  TestReceiversConfigBodyParams := unit;
  TestReceiversResult := unit;
  TestTemplatesConfigBodyParams := unit;
  TestTemplatesResults := unit
|}.

Record Double : Type := {
  ready : bool;           (* Ready() *)
  applyErr : error;       (* ApplyConfig *)
  cfgErr : error;         (* CompareAndSendConfiguration *)
  stateErr : error;       (* CompareAndSendState *)
  err : error;            (* the error of every other method *)
  hits : nat              (* calls received *)
}.

Definition hit (d : Double) : Double :=
  {| ready := ready d; applyErr := applyErr d; cfgErr := cfgErr d;
     stateErr := stateErr d; err := err d; hits := S (hits d) |}.

Definition answer (d : Double) {T : Type} (m : @notifier.Alertmanager api T) : T :=
  match m in notifier.Alertmanager T return T with
  | notifier.ApplyConfig _ _ => applyErr d
  | notifier.SaveAndApplyConfig _ _ => err d
  | notifier.SaveAndApplyDefaultConfig _ => err d
  | notifier.GetStatus => "status"
  | notifier.CreateSilence _ _ => ("test-id", err d)
  | notifier.DeleteSilence _ _ => err d
  | notifier.GetSilence _ id => (id, err d)
  | notifier.ListSilences _ filter => (filter, err d)
  | notifier.GetAlerts _ _ _ _ filter _ => (filter, err d)
  | notifier.GetAlertGroups _ _ _ _ filter _ => (filter, err d)
  | notifier.PutAlerts _ _ => err d
  | notifier.GetReceivers _ => (["receiver"], err d)
  | notifier.TestReceivers _ _ => (None, err d)
  | notifier.TestTemplate _ _ => (None, err d)
  | notifier.CleanUp => tt
  | notifier.StopAndWait => tt
  | notifier.Ready => ready d
  end.

Definition answer_remote (d : Double) {T : Type} (m : @remoteAlertmanager api T) : T :=
  match m in remoteAlertmanager T return T with
  | Base m' => answer d m'
  | CompareAndSendConfiguration _ _ => cfgErr d
  | CompareAndSendState _ => stateErr d
  end.

Definition as_internal : Implements (@notifier.Alertmanager api) Double :=
  fun T m d => (answer d m, hit d).

Definition as_remote : Implements (@remoteAlertmanager api) Double :=
  fun T m d => (answer_remote d m, hit d).

(** A double that answers [rdy] to [Ready] and the given errors to the three
    synchronisation methods. *)
Definition double (rdy : bool) (apply cfg state : error) : Double :=
  {| ready := rdy; applyErr := apply; cfgErr := cfg; stateErr := state;
     err := None; hits := 0 |}.

(** A clock that starts at 2023-11-14 22:13:20 UTC and advances by one
    second between two readings. *)
Definition clock (n : nat) : time.Time :=
  (1700000000 + Z.of_nat n) * time.Second.

(** [require.NoError(t, err)] on the constructor's result: the coordinator
    behind the returned pointer (the zero struct if the pointer is nil). *)
Definition must (x : option RemoteSecondaryForkedAlertmanager * error)
    : RemoteSecondaryForkedAlertmanager :=
  match x with
  | (Some fam, _) => fam
  | (None, _) =>
      {| log := None; internal := 0%nat; remote := 0%nat;
         lastSync := time.zero; syncInterval := 0 |}
  end.

(** [genTestAlertmanagersWithSyncInterval] for the secondary mode: the
    internal mock at reference 1, the remote mock at reference 2, a no-op
    logger and the coordinator built by the constructor. *)
Definition secondary (syncInterval : time.Duration) (i r : Double)
    : Sys (Api := api) RemoteSecondaryForkedAlertmanager Double Double :=
  MkSys
    (must (NewRemoteSecondaryForkedAlertmanager
             {| SyncInterval := syncInterval; Logger := Some "nop" |}
             1%nat 2%nat))
    {[ 1%nat := i ]} {[ 2%nat := r ]} [] [] [] 0.

(** The same coordinator later in its life: its last synchronisation was at
    [t] and the clock has been read [n] times. *)
Definition synced (syncInterval : time.Duration) (t : time.Time) (n : nat)
    (i r : Double)
    : Sys (Api := api) RemoteSecondaryForkedAlertmanager Double Double :=
  MkSys (with_lastSync (self (secondary syncInterval i r)) t)
    {[ 1%nat := i ]} {[ 2%nat := r ]} [] [] [] n.

(** New expectations on the two mocks between two calls of the coordinator:
    the doubles are replaced, the records are kept. *)
Definition expect (i r : Double)
    : M (Api := api) RemoteSecondaryForkedAlertmanager Double Double unit :=
  fun s => Some (tt, MkSys (self s) {[ 1%nat := i ]} {[ 2%nat := r ]}
                       (icalls s) (rcalls s) (logged s) (reads s)).

(** What a test looks at when the calls are over: the value returned, the
    coordinator's [lastSync] and the calls the two mocks received. *)
Definition observe {A : Type}
    (x : option (A * Sys (Api := api) RemoteSecondaryForkedAlertmanager
                       Double Double))
    : option (A * time.Time * list (Called (@remoteAlertmanager api)) *
              list (Called (@notifier.Alertmanager api))) :=
  match x with
  | Some (v, s) => Some (v, lastSync (self s), rcalls s, icalls s)
  | None => None
  end.

(** [genTestAlertmanagers] for the primary mode. *)
Definition primary (i r : Double)
    : Sys (Api := api) RemotePrimary.RemotePrimaryForkedAlertmanager Double Double :=
  MkSys (RemotePrimary.NewRemotePrimaryForkedAlertmanager 1%nat 2%nat)
    {[ 1%nat := i ]} {[ 2%nat := r ]} [] [] [] 0.

End Mock.

(** ** Errors returned and errors logged *)

Section Errors.
Context {Api : ApiTypes}.

(** The error in the result of a method of [notifier.Alertmanager]; the
    methods without an error in their result give nil. *)
Definition error_of {T : Type} (m : notifier.Alertmanager T) : T -> error :=
  match m in notifier.Alertmanager T return T -> error with
  | notifier.ApplyConfig _ _ => fun e => e
  | notifier.SaveAndApplyConfig _ _ => fun e => e
  | notifier.SaveAndApplyDefaultConfig _ => fun e => e
  | notifier.GetStatus => fun _ => None
  | notifier.CreateSilence _ _ => fun r => r.2
  | notifier.DeleteSilence _ _ => fun e => e
  | notifier.GetSilence _ _ => fun r => r.2
  | notifier.ListSilences _ _ => fun r => r.2
  | notifier.GetAlerts _ _ _ _ _ _ => fun r => r.2
  | notifier.GetAlertGroups _ _ _ _ _ _ => fun r => r.2
  | notifier.PutAlerts _ _ => fun e => e
  | notifier.GetReceivers _ => fun r => r.2
  | notifier.TestReceivers _ _ => fun r => r.2
  | notifier.TestTemplate _ _ => fun r => r.2
  | notifier.CleanUp => fun _ => None
  | notifier.StopAndWait => fun _ => None
  | notifier.Ready => fun _ => None
  end.

(** The same for [remoteAlertmanager]. *)
Definition remote_error_of {T : Type} (m : remoteAlertmanager T) : T -> error :=
  match m in remoteAlertmanager T return T -> error with
  | Base m' => error_of m'
  | CompareAndSendConfiguration _ _ => fun e => e
  | CompareAndSendState _ => fun e => e
  end.

(** The errors that recorded calls on the remote Alertmanager returned, in
    the order of the calls. *)
Definition errors_returned (calls : list (Called remoteAlertmanager))
    : list string :=
  omap (fun c => remote_error_of (method c) (returned c)) calls.

(** The errors a logger received: the error values in the entries of level
    Error, in the order of the entries. *)
Definition entry_errors (e : log.Entry) : list string :=
  match log.level e with
  | log.LvlError =>
      omap (fun kv => match kv.2 with
                      | log.VErr x => Some x
                      | log.VTime _ => None
                      end) (log.ctx e)
  | log.LvlDebug => []
  end.

Definition errors_logged (entries : list (string * log.Entry)) : list string :=
  concat (map (fun x => entry_errors x.2) entries).

(** A recorded call on the remote Alertmanager is the [Ready] question. *)
Definition is_Ready (c : Called remoteAlertmanager) : bool :=
  match method c with
  | Base notifier.Ready => true
  | _ => false
  end.

End Errors.

(** ** The life of a secondary coordinator *)

Section Life.
Context {Api : ApiTypes}.
Context {I R : Type}.
Context `{!Implements notifier.Alertmanager I}.
Context `{!Implements remoteAlertmanager R}.
Variable wall : nat -> time.Time.

Local Abbreviation Secondary := (Sys RemoteSecondaryForkedAlertmanager I R).

(** [evolves s s']: the coordinator of [s] gets to [s'] by calls of its
    methods, with any arguments, while the world around it moves on
    ([later]). *)
Inductive evolves (s : Secondary) : Secondary -> Prop :=
| evolves_here : evolves s s
| evolves_serve (s1 s2 : Secondary) (T : Type) (m : notifier.Alertmanager T)
    (v : T) :
    evolves s s1 ->
    RemoteSecondary.serve wall m s1 = Some (v, s2) ->
    evolves s s2
| evolves_later (s1 s2 : Secondary) :
    evolves s s1 ->
    later s1 s2 ->
    evolves s s2.

End Life.

(** * The InfluxQL query path (package [influxql])

    [Query] turns every query of a request into an HTTP request for
    InfluxDB ([createRequest]), sends it and parses the answer ([execute]).
    The Go standard library, the plugin SDK and the packages of the
    repository that these functions call are not part of the sources: they
    are taken as parameters ([Opaque] for their types, [Externals] for their
    functions), and everything below holds for all of them.  The code is
    sequential, so one list of events records what it does to the outside:
    log entries, HTTP round trips, trace spans, parses and closes. *)

(** The types the code only passes on. *)
Class Opaque : Type := {
  Ctx : Type;                     (* context.Context *)
  Tracer : Type;                  (* trace.Tracer *)
  FeatureToggles : Type;          (* featuremgmt.FeatureToggles *)
  http_Client : Type;             (* http.Client *)
  Net : Type;                     (* the state of the network and the servers *)
  ReadCloser : Type;              (* io.ReadCloser, the body of a response *)
  Frame : Type;                   (* data.Frame *)
  QueryPart : Type;               (* models.QueryPart *)
  DataQueryRest : Type;           (* the fields of backend.DataQuery but RefID *)
  RequestRest : Type;             (* the fields of http.Request but URL, Header *)
  URLRest : Type;                 (* the fields of url.URL but Path, RawQuery *)
  QueryDataRequestRest : Type     (* the fields of QueryDataRequest but Queries *)
}.

(** [url.Values] and [http.Header]: map[string][]string. *)
Abbreviation Values := (gmap string (list string)).

(** [v.Set(key, value)]. *)
Definition Values_Set (v : Values) (key value : string) : Values :=
  <[key := [value]]> v.

(** [v.Add(key, value)]. *)
Definition Values_Add (v : Values) (key value : string) : Values :=
  <[key := default [] (v !! key) ++ [value]]> v.

Module url.
Section Types.
Context {O : Opaque}.

Record URL : Type := {
  Path : string;
  RawQuery : string;
  rest : URLRest
}.

End Types.
End url.

Module http.
Section Types.
Context {O : Opaque}.

Record Request : Type := {
  URL : url.URL;                  (* behind a pointer in Go *)
  Header : Values;
  rest : RequestRest
}.

Record Response : Type := {
  StatusCode : Z;
  Body : ReadCloser
}.

End Types.
End http.

Module backend.
Section Types.
Context {O : Opaque}.

Record DataQuery : Type := {
  RefID : string;
  rest : DataQueryRest
}.

Record QueryDataRequest : Type := {
  Queries : list DataQuery;
  req_rest : QueryDataRequestRest
}.

(** The fields of [backend.DataResponse] that [Query] writes. *)
Record DataResponse : Type := {
  Frames : list Frame;
  Error : error
}.

(** [Responses] is a Go map: [None] is the nil map of the struct literal
    [QueryDataResponse{}], [Some m] a map made by [NewQueryDataResponse]. *)
Record QueryDataResponse : Type := {
  Responses : option (gmap string DataResponse)
}.

End Types.
End backend.

(** Package [models] of the InfluxDB data source. *)
Module models.
Section Types.
Context {O : Opaque}.

Record Tag : Type := {
  Key : string;
  Operator : string;
  Value : string;
  Condition : string
}.

Definition Select : Type := list QueryPart.

Record Query : Type := {
  Measurement : string;
  Policy : string;
  Tags : list (ptr Tag);
  GroupBy : list (ptr QueryPart);
  Selects : list (ptr Select);
  RawQuery : string;
  UseRawQuery : bool;
  Alias : string;
  Interval : time.Duration;
  Tz : string;
  Limit : string;
  Slimit : string;
  OrderByTime : string;
  RefID : string;
  ResultFormat : string
}.

(** The fields of [models.DatasourceInfo] that the query path reads. *)
Record DatasourceInfo : Type := {
  HTTPClient : http_Client;       (* behind a pointer in Go *)
  URL : string;
  DbName : string;
  HTTPMode : string
}.

End Types.
End models.

(** The functions the code calls and the sources do not hold. *)
Class Externals {O : Opaque} : Type := {
  (* net/url, path, net/http, net/textproto *)
  url_Parse : string -> ptr url.URL * error;
  path_Join : list string -> string;
  URL_String : url.URL -> string;
  url_ParseQuery : string -> Values;        (* its error is dropped by URL.Query *)
  Values_Encode : Values -> string;
  CanonicalMIMEHeaderKey : string -> string;
  http_NewRequestWithContext :
    Ctx -> string -> string -> ptr string -> ptr http.Request * error;
  (* models.QueryParse and the method Build of *models.Query, which may
     write to its receiver *)
  QueryParse : backend.DataQuery -> ptr models.Query * error;
  Build : models.Query -> backend.QueryDataRequest ->
          string * error * models.Query;
  (* setting.Env == setting.Dev *)
  Dev : bool;
  (* features.IsEnabled(ctx, featuremgmt.FlagInfluxqlStreamingParser) *)
  IsEnabled : FeatureToggles -> Ctx -> bool;
  (* dsInfo.HTTPClient.Do, res.Body.Close and the two parsers, which read
     the body *)
  Do : http_Client -> ptr http.Request -> Net ->
       ptr http.Response * error * Net;
  Close : ReadCloser -> Net -> error * Net;
  querydata_ResponseParse :
    ReadCloser -> Z -> models.Query -> Net -> ptr backend.DataResponse * Net;
  buffered_ResponseParse :
    ReadCloser -> Z -> models.Query -> Net -> ptr backend.DataResponse * Net
}.

Module influxql.
Section Code.
Context {O : Opaque} {E : Externals}.

Inductive Level : Type := Info | Debug | Warn.

(** What the code does to the outside, in order. *)
Inductive Event : Type :=
| Logged (logger : string) (lvl : Level) (msg : string) (args : list string)
| RoundTrip (request : ptr http.Request) (res : ptr http.Response) (err : error)
| SpanStarted (name : string)
| SpanEnded
| Parsed (streaming : bool) (status : Z) (query : models.Query)
| Closed (err : error).

Record World : Type := MkWorld {
  net : Net;
  events : list Event
}.

(** State and panic, as for the coordinators. *)
Definition IO (A : Type) : Type := World -> option (A * World).

Definition pure {A : Type} (a : A) : IO A := fun w => Some (a, w).

Definition then_ {A B : Type} (c : IO A) (k : A -> IO B) : IO B :=
  fun w => match c w with
           | Some (a, w') => k a w'
           | None => None
           end.

Definition panic {A : Type} : IO A := fun _ => None.

Definition record (e : Event) : IO unit :=
  fun w => Some (tt, MkWorld (net w) (events w ++ [e])).

(** A step of the outside world. *)
Definition outside {A : Type} (f : Net -> A * Net) : IO A :=
  fun w => let '(a, n) := f (net w) in Some (a, MkWorld n (events w)).

(** A call of a logger method; the nil logger panics. *)
Definition logf (logger : log.Logger) (lvl : Level) (msg : string)
    (args : list string) : IO unit :=
  match logger with
  | None => panic
  | Some name => record (Logged name lvl msg args)
  end.

End Code.

Declare Scope influx_scope.
Delimit Scope influx_scope with influx.
Notation "x <- c ;; k" := (then_ c (fun x => k))
  (at level 100, c at next level, right associativity) : influx_scope.
Notation "c ;; k" := (then_ c (fun _ => k))
  (at level 100, right associativity) : influx_scope.

Section Functions.
Context {O : Opaque} {E : Externals}.
Local Open Scope influx_scope.

Definition defaultRetentionPolicy : string := "default".

Definition ErrInvalidHttpMode : error :=
  Some "'httpMode' should be either 'GET' or 'POST'".

(** [glog], the logger of the package. *)
Definition glog : log.Logger := Some "tsdb.influx_influxql".

(** [glog.FromContext(ctx)]: the same logger, with the attributes of the
    context. *)
Definition glog_FromContext (ctx : Ctx) : log.Logger := glog.

Definition createRequest (ctx : Ctx) (logger : log.Logger)
    (dsInfo : models.DatasourceInfo) (queryStr retentionPolicy : string)
    : IO (ptr http.Request * error) :=
  match url_Parse (models.URL dsInfo) with
  | (_, Some err) => pure (None, Some err)
  | (None, None) => panic                       (* u.Path on a nil u *)
  | (Some u, None) =>
      let u := {| url.Path := path_Join [url.Path u; "query"];
                  url.RawQuery := url.RawQuery u;
                  url.rest := url.rest u |} in
      let httpMode := models.HTTPMode dsInfo in
      let made :=
        if String.eqb httpMode "GET" then
          Some (http_NewRequestWithContext ctx "GET" (URL_String u) None)
        else if String.eqb httpMode "POST" then
          let bodyValues := Values_Add ∅ "q" queryStr in
          let body := Values_Encode bodyValues in
          Some (http_NewRequestWithContext ctx "POST" (URL_String u) (Some body))
        else None in
      match made with
      | None => pure (None, ErrInvalidHttpMode)
      | Some (_, Some err) => pure (None, Some err)
      | Some (None, None) => panic              (* req.URL on a nil req *)
      | Some (Some req, None) =>
          let params := url_ParseQuery (url.RawQuery (http.URL req)) in
          let params := Values_Set params "db" (models.DbName dsInfo) in
          let params := Values_Set params "epoch" "ms" in
          (* default is hardcoded default retention policy
             InfluxDB will use the default policy when it is not added to
             the request *)
          let params :=
            if negb (String.eqb retentionPolicy "") &&
               negb (String.eqb retentionPolicy "default")
            then Values_Set params "rp" retentionPolicy
            else params in
          let '(params, header) :=
            if String.eqb httpMode "GET" then
              (Values_Set params "q" queryStr, http.Header req)
            else if String.eqb httpMode "POST" then
              (params,
               Values_Set (http.Header req)
                 (CanonicalMIMEHeaderKey "Content-type")
                 "application/x-www-form-urlencoded")
            else (params, http.Header req) in
          let req :=
            {| http.URL := {| url.Path := url.Path (http.URL req);
                              url.RawQuery := Values_Encode params;
                              url.rest := url.rest (http.URL req) |};
               http.Header := header;
               http.rest := http.rest req |} in
          logf logger Debug "Influxdb request"
            ["url"; URL_String (http.URL req)] ;;
          pure (Some req, None)
      end
  end.

Definition execute (ctx : Ctx) (tracer : Tracer)
    (dsInfo : models.DatasourceInfo) (logger : log.Logger)
    (query : models.Query) (request : ptr http.Request)
    (isStreamingParserEnabled : bool)
    : IO (backend.DataResponse * error) :=
  r <- outside (fun n => Do (models.HTTPClient dsInfo) request n) ;;
  record (RoundTrip request r.1 r.2) ;;
  match r with
  | (_, Some err) =>
      pure ({| backend.Frames := []; backend.Error := None |}, Some err)
  | (None, None) => panic                       (* res.Body on a nil res *)
  | (Some res, None) =>
      record (SpanStarted "datasource.influxdb.influxql.parseResponse") ;;
      resp <-
        (if isStreamingParserEnabled then
           logf logger Info "InfluxDB InfluxQL streaming parser enabled: "
             ["info"] ;;
           outside (querydata_ResponseParse (http.Body res)
                      (http.StatusCode res) query)
         else
           outside (buffered_ResponseParse (http.Body res)
                      (http.StatusCode res) query)) ;;
      record (Parsed isStreamingParserEnabled (http.StatusCode res) query) ;;
      (* the deferred calls, last one first *)
      record SpanEnded ;;
      cerr <- outside (Close (http.Body res)) ;;
      record (Closed cerr) ;;
      match cerr with
      | Some err => logf logger Warn "Failed to close response body" ["err"; err]
      | None => pure tt
      end ;;
      match resp with
      | None => panic                           (* *resp on a nil resp *)
      | Some resp => pure (resp, None)
      end
  end.

(** The body of the loop of [Query] over [req.Queries], with the responses
    collected so far. *)
Fixpoint Query_loop (ctx : Ctx) (tracer : Tracer)
    (dsInfo : models.DatasourceInfo) (req : backend.QueryDataRequest)
    (features : FeatureToggles) (logger : log.Logger)
    (queries : list backend.DataQuery)
    (responses : gmap string backend.DataResponse)
    : IO (backend.QueryDataResponse * error) :=
  match queries with
  | [] => pure ({| backend.Responses := Some responses |}, None)
  | reqQuery :: queries =>
      match QueryParse reqQuery with
      | (_, Some err) => pure ({| backend.Responses := None |}, Some err)
      | (None, None) => panic                   (* query.Build on a nil query *)
      | (Some query, None) =>
          match Build query req with
          | (_, Some err, _) => pure ({| backend.Responses := None |}, Some err)
          | (rawQuery, None, query) =>
              let query :=
                {| models.Measurement := models.Measurement query;
                   models.Policy := models.Policy query;
                   models.Tags := models.Tags query;
                   models.GroupBy := models.GroupBy query;
                   models.Selects := models.Selects query;
                   models.RawQuery := rawQuery;
                   models.UseRawQuery := models.UseRawQuery query;
                   models.Alias := models.Alias query;
                   models.Interval := models.Interval query;
                   models.Tz := models.Tz query;
                   models.Limit := models.Limit query;
                   models.Slimit := models.Slimit query;
                   models.OrderByTime := models.OrderByTime query;
                   models.RefID := backend.RefID reqQuery;
                   models.ResultFormat := models.ResultFormat query |} in
              (if Dev then
                 logf logger Info "Influxdb query" ["raw query"; rawQuery]
               else pure tt) ;;
              created <- createRequest ctx logger dsInfo rawQuery
                           (models.Policy query) ;;
              match created with
              | (_, Some err) =>
                  pure ({| backend.Responses := None |}, Some err)
              | (request, None) =>
                  executed <- execute ctx tracer dsInfo logger query request
                                (IsEnabled features ctx) ;;
                  let responses :=
                    match executed with
                    | (_, Some err) =>
                        <[models.RefID query :=
                            {| backend.Frames := [];
                               backend.Error := Some err |}]> responses
                    | (resp, None) =>
                        <[models.RefID query := resp]> responses
                    end in
                  Query_loop ctx tracer dsInfo req features logger queries
                    responses
              end
          end
      end
  end.

Definition Query (ctx : Ctx) (tracer : Tracer) (dsInfo : models.DatasourceInfo)
    (req : backend.QueryDataRequest) (features : FeatureToggles)
    : IO (backend.QueryDataResponse * error) :=
  let logger := glog_FromContext ctx in
  (* response := backend.NewQueryDataResponse(), with an empty map *)
  Query_loop ctx tracer dsInfo req features logger (backend.Queries req) ∅.

End Functions.
End influxql.

(** ** Vocabulary of the statements about [influxql] *)

Section InfluxVocabulary.
Context {O : Opaque} {E : Externals}.

(** How many events of a list satisfy a test. *)
Definition tally (f : influxql.Event -> bool) (evs : list influxql.Event) : nat :=
  length (List.filter f evs).

(** A round trip that brought a response, whose body is then open. *)
Definition opens (e : influxql.Event) : bool :=
  match e with
  | influxql.RoundTrip _ (Some _) None => true
  | _ => false
  end.

Definition closes (e : influxql.Event) : bool :=
  match e with
  | influxql.Closed _ => true
  | _ => false
  end.

Definition is_RoundTrip (e : influxql.Event) : bool :=
  match e with
  | influxql.RoundTrip _ _ _ => true
  | _ => false
  end.

Definition starts_span (e : influxql.Event) : bool :=
  match e with
  | influxql.SpanStarted _ => true
  | _ => false
  end.

Definition ends_span (e : influxql.Event) : bool :=
  match e with
  | influxql.SpanEnded => true
  | _ => false
  end.

(** The reference ids of the queries of a request. *)
Definition refIDs (req : backend.QueryDataRequest) : gset string :=
  list_to_set (map backend.RefID (backend.Queries req)).

End InfluxVocabulary.

(** ** A toy InfluxDB for the examples *)

Module InfluxMock.

Definition opaque : Opaque := {|
  Ctx := unit;
  Tracer := unit;
  FeatureToggles := bool;              (* the streaming parser flag *)
  http_Client := unit;
  Net := nat;                          (* round trips made so far *)
  ReadCloser := string;
  Frame := string;
  QueryPart := string;
  DataQueryRest := string;             (* the measurement asked for *)
  RequestRest := string * ptr string;  (* method, body *)
  URLRest := unit;
  QueryDataRequestRest := unit
|}.

#[local] Existing Instance opaque.

Definition encode (v : Values) : string :=
  String.concat "&"
    (map (fun kv => kv.1 +:+ "=" +:+ String.concat "," kv.2) (map_to_list v)).

Definition parse (dq : backend.DataQuery) : ptr models.Query * error :=
  if String.eqb (backend.rest dq) "" then (None, Some "no measurement")
  else
    (Some {| models.Measurement := backend.rest dq;
             models.Policy := "autogen";
             models.Tags := [];
             models.GroupBy := [];
             models.Selects := [];
             models.RawQuery := "";
             models.UseRawQuery := false;
             models.Alias := "";
             models.Interval := 0;
             models.Tz := "";
             models.Limit := "";
             models.Slimit := "";
             models.OrderByTime := "";
             models.RefID := "";
             models.ResultFormat := "" |},
     None).

(** The first round trip of the network fails, the others bring a response. *)
Definition roundTrip (n : nat) : ptr http.Response * error * nat :=
  match n with
  | O => (None, Some "connection refused", 1%nat)
  | S _ => (Some {| http.StatusCode := 200; http.Body := "{}" |}, None, S n)
  end.

Definition externals : Externals := {|
  url_Parse := fun s =>
    if String.eqb s "" then (None, Some "empty url")
    else (Some {| url.Path := s; url.RawQuery := ""; url.rest := tt |}, None);
  path_Join := String.concat "/";
  URL_String := fun u =>
    if String.eqb (url.RawQuery u) "" then url.Path u
    else url.Path u +:+ "?" +:+ url.RawQuery u;
  url_ParseQuery := fun s => if String.eqb s "" then ∅ else {[ "u" := [s] ]};
  Values_Encode := encode;
  CanonicalMIMEHeaderKey := fun k =>
    if String.eqb k "Content-type" then "Content-Type" else k;
  http_NewRequestWithContext := fun _ method target body =>
    (Some {| http.URL := {| url.Path := target; url.RawQuery := "admin";
                            url.rest := tt |};
             http.Header := ∅;
             http.rest := (method, body) |},
     None);
  QueryParse := parse;
  Build := fun q _ => ("SELECT * FROM " +:+ models.Measurement q, None, q);
  Dev := true;
  IsEnabled := fun flag _ => flag;
  Do := fun _ _ n => roundTrip n;
  Close := fun _ n => (None, n);
  querydata_ResponseParse := fun b _ _ n =>
    (Some {| backend.Frames := [b]; backend.Error := None |}, n);
  buffered_ResponseParse := fun b _ _ n =>
    (Some {| backend.Frames := [b]; backend.Error := None |}, n)
|}.

Definition datasource (mode : string) : models.DatasourceInfo :=
  {| models.HTTPClient := tt;
     models.URL := "http://influx:8086";
     models.DbName := "site";
     models.HTTPMode := mode |}.

(** A request with the queries A and B. *)
Definition request : backend.QueryDataRequest :=
  {| backend.Queries :=
       [ {| backend.RefID := "A"; backend.rest := "cpu" |};
         {| backend.RefID := "B"; backend.rest := "mem" |} ];
     backend.req_rest := tt |}.

(** The same with a third query that does not parse. *)
Definition bad_request : backend.QueryDataRequest :=
  {| backend.Queries :=
       backend.Queries request ++ [ {| backend.RefID := "C"; backend.rest := "" |} ];
     backend.req_rest := tt |}.

(** The world before the call: [n] round trips made, no event yet. *)
Definition world (n : nat) : influxql.World (O := opaque) :=
  influxql.MkWorld n [].

End InfluxMock.

(** * Properties *)

(** ** Proof automation

    [run_go] runs a program of the monad on a state for which the context
    holds the answers of the store and of the objects; [crack] runs it by
    cases on these answers. *)

Ltac unfold_go :=
  unfold RemoteSecondary.ApplyConfig, RemoteSecondary.ApplyConfig_joined,
    RemoteSecondary.syncRoutine, RemoteSecondary.set_lastSync, time_Since,
    time_Now, log_Error, log_Debug, emit, bind, ret, this, store,
    call_remote, call_internal.

Ltac run_go :=
  unfold_go;
  repeat (cbn;
    match goal with
    | E : ?x = _ |- context [match ?x with _ => _ end] => rewrite E
    | |- context [<[?l := _]> _ !! ?l] => rewrite lookup_insert_eq
    end).

Ltac crack :=
  unfold_go;
  repeat (cbn;
    match goal with
    | |- context [<[?l := _]> _ !! ?l] => rewrite lookup_insert_eq
    | |- context [match internals ?s !! ?l with _ => _ end] =>
        is_var s; destruct (internals s !! l) eqn:?
    | |- context [match remotes ?s !! ?l with _ => _ end] =>
        is_var s; destruct (remotes s !! l) eqn:?
    | |- context [match invoke ?m ?o with _ => _ end] => destruct (invoke m o) eqn:?
    | |- context [match log ?f with _ => _ end] => destruct (log f) eqn:?
    | |- context [if ?a <=? ?b then _ else _] => destruct (a <=? b) eqn:?
    | |- context [match negb ?x with _ => _ end] => is_var x; destruct x
    | |- context [match ?x with _ => _ end] => is_var x; destruct x
    end);
  try discriminate.

(** ** Running the primitives *)

Section Primitives.
Context {Api : ApiTypes}.
Context {C I R : Type}.
Context `{!Implements notifier.Alertmanager I}.
Context `{!Implements remoteAlertmanager R}.

Local Abbreviation Go := (M C I R).

Lemma call_remote_run {T : Type} (m : remoteAlertmanager T) (l : loc)
    (s : Sys C I R) (o o' : R) (v : T) :
  remotes s !! l = Some o ->
  invoke m o = (v, o') ->
  call_remote l m s =
    Some (v, MkSys (self s) (internals s) (<[l := o']> (remotes s)) (icalls s)
               (rcalls s ++ [Call l m v]) (logged s) (reads s)).
Proof. intros E1 E2. unfold call_remote. now rewrite E1, E2. Qed.

Lemma call_internal_run {T : Type} (m : notifier.Alertmanager T) (l : loc)
    (s : Sys C I R) (o o' : I) (v : T) :
  internals s !! l = Some o ->
  invoke m o = (v, o') ->
  call_internal l m s =
    Some (v, MkSys (self s) (<[l := o']> (internals s)) (remotes s)
               (icalls s ++ [Call l m v]) (rcalls s) (logged s) (reads s)).
Proof. intros E1 E2. unfold call_internal. now rewrite E1, E2. Qed.

(** *** The caller's thread and the goroutine

    The goroutine of [ApplyConfig] is made of calls through [remote], calls
    of the logger, readings of the clock and the assignment to
    [fam.lastSync].  A call through [internal] commutes with each of them:
    it may happen before or after any step of the goroutine, the values
    returned and the final state are the same. *)

Lemma call_internal_call_remote {A B : Type} (l l' : loc)
    (m : notifier.Alertmanager A) (m' : remoteAlertmanager B) (s : Sys C I R) :
  (x <- call_internal l m ;; y <- call_remote l' m' ;; ret (x, y)) s =
  (y <- call_remote l' m' ;; x <- call_internal l m ;; ret (x, y)) s.
Proof. crack; cbn; congruence. Qed.

Lemma call_internal_emit {A : Type} (l : loc) (m : notifier.Alertmanager A)
    (lg : log.Logger) (lvl : log.Level) (msg : string)
    (ctx : list (string * log.Value)) (s : Sys C I R) :
  (x <- call_internal l m ;; emit lg lvl msg ctx ;; ret x) s =
  (emit lg lvl msg ctx ;; x <- call_internal l m ;; ret x) s.
Proof. crack; cbn; congruence. Qed.

Lemma call_internal_time_Now {A : Type} (wall : nat -> time.Time) (l : loc)
    (m : notifier.Alertmanager A) (s : Sys C I R) :
  (x <- call_internal l m ;; now <- time_Now wall ;; ret (x, now)) s =
  (now <- time_Now wall ;; x <- call_internal l m ;; ret (x, now)) s.
Proof. crack; cbn; congruence. Qed.

Lemma call_internal_store {A : Type} (l : loc) (m : notifier.Alertmanager A)
    (c : C) (s : Sys C I R) :
  (x <- call_internal l m ;; store c ;; ret x) s =
  (store c ;; x <- call_internal l m ;; ret x) s.
Proof. crack; cbn; congruence. Qed.

End Primitives.

(** ** The three branches of the secondary coordinator's [ApplyConfig] *)

Section SecondaryApplyConfig.
Context {Api : ApiTypes}.
Context {I R : Type}.
Context `{!Implements notifier.Alertmanager I}.
Context `{!Implements remoteAlertmanager R}.
Variable wall : nat -> time.Time.

Local Abbreviation Secondary := (Sys RemoteSecondaryForkedAlertmanager I R).

(** Remote not ready: the readiness probe. *)
Lemma ApplyConfig_probe (s : Secondary) (ctx : context_Context)
    (config : ptr AlertConfiguration) (name : string) (i i' : I) (r r1 r2 : R)
    (ierr rerr : error) :
  log (self s) = Some name ->
  internals s !! internal (self s) = Some i ->
  remotes s !! remote (self s) = Some r ->
  invoke (Base notifier.Ready) r = (false, r1) ->
  invoke (Base (notifier.ApplyConfig ctx config)) r1 = (rerr, r2) ->
  invoke (notifier.ApplyConfig ctx config) i = (ierr, i') ->
  exists s' : Secondary,
    RemoteSecondary.ApplyConfig wall ctx config s = Some (ierr, s') /\
    self s' = match rerr with
              | None => with_lastSync (self s) (wall (reads s))
              | Some _ => self s
              end /\
    rcalls s' = rcalls s ++
      [Call (remote (self s)) (Base notifier.Ready) false;
       Call (remote (self s)) (Base (notifier.ApplyConfig ctx config)) rerr] /\
    icalls s' = icalls s ++
      [Call (internal (self s)) (notifier.ApplyConfig ctx config) ierr] /\
    remotes s' = <[remote (self s) := r2]> (remotes s) /\
    internals s' = <[internal (self s) := i']> (internals s) /\
    logged s' = logged s ++
      match rerr with
      | None => []
      | Some e =>
          [(name, log.Build_Entry log.LvlError
                    "Error applying config to the remote Alertmanager"
                    [("err", log.VErr e)])]
      end /\
    reads s' = match rerr with
               | None => S (reads s)
               | Some _ => reads s
               end.
Proof.
  intros Hlog Hi Hr Hready Happly Hint.
  destruct rerr as [e|]; run_go; eexists; (split; [reflexivity|]); cbn;
    rewrite insert_insert_eq, <- app_assoc, ?app_nil_r; auto 10.
Qed.

(** Remote ready, synchronised less than [syncInterval] ago: nothing to do. *)
Lemma ApplyConfig_too_soon (s : Secondary) (ctx : context_Context)
    (config : ptr AlertConfiguration) (i i' : I) (r r1 : R) (ierr : error) :
  internals s !! internal (self s) = Some i ->
  remotes s !! remote (self s) = Some r ->
  invoke (Base notifier.Ready) r = (true, r1) ->
  sinceLastSync wall s < syncInterval (self s) ->
  invoke (notifier.ApplyConfig ctx config) i = (ierr, i') ->
  exists s' : Secondary,
    RemoteSecondary.ApplyConfig wall ctx config s = Some (ierr, s') /\
    self s' = self s /\
    rcalls s' = rcalls s ++ [Call (remote (self s)) (Base notifier.Ready) true] /\
    icalls s' = icalls s ++
      [Call (internal (self s)) (notifier.ApplyConfig ctx config) ierr] /\
    remotes s' = <[remote (self s) := r1]> (remotes s) /\
    internals s' = <[internal (self s) := i']> (internals s) /\
    logged s' = logged s /\
    reads s' = S (reads s).
Proof.
  intros Hi Hr Hready Hsoon Hint. unfold sinceLastSync in Hsoon.
  apply Z.leb_gt in Hsoon.
  run_go. eexists. split; [reflexivity|]. cbn. auto 10.
Qed.

(** Remote ready and the sync interval has elapsed: the two uploads. *)
Lemma ApplyConfig_due (s : Secondary) (ctx : context_Context)
    (config : ptr AlertConfiguration) (name : string) (i i' : I)
    (r r1 r2 r3 : R) (ierr cfgErr stateErr : error) :
  log (self s) = Some name ->
  internals s !! internal (self s) = Some i ->
  remotes s !! remote (self s) = Some r ->
  invoke (Base notifier.Ready) r = (true, r1) ->
  syncInterval (self s) <= sinceLastSync wall s ->
  invoke (CompareAndSendConfiguration ctx config) r1 = (cfgErr, r2) ->
  invoke (CompareAndSendState ctx) r2 = (stateErr, r3) ->
  invoke (notifier.ApplyConfig ctx config) i = (ierr, i') ->
  exists s' : Secondary,
    RemoteSecondary.ApplyConfig wall ctx config s = Some (ierr, s') /\
    self s' = match cfgErr, stateErr with
              | None, None => with_lastSync (self s) (wall (S (reads s)))
              | _, _ => self s
              end /\
    rcalls s' = rcalls s ++
      [Call (remote (self s)) (Base notifier.Ready) true;
       Call (remote (self s)) (CompareAndSendConfiguration ctx config) cfgErr;
       Call (remote (self s)) (CompareAndSendState ctx) stateErr] /\
    icalls s' = icalls s ++
      [Call (internal (self s)) (notifier.ApplyConfig ctx config) ierr] /\
    remotes s' = <[remote (self s) := r3]> (remotes s) /\
    internals s' = <[internal (self s) := i']> (internals s) /\
    logged s' = logged s ++ sync_log name (lastSync (self s)) cfgErr stateErr /\
    reads s' = match cfgErr, stateErr with
               | None, None => S (S (reads s))
               | _, _ => S (reads s)
               end.
Proof.
  intros Hlog Hi Hr Hready Hdue Hcfg Hstate Hint. unfold sinceLastSync in Hdue.
  apply Z.leb_le in Hdue.
  destruct cfgErr as [e1|], stateErr as [e2|]; run_go; eexists;
    (split; [reflexivity|]); cbn; unfold sync_log;
    rewrite !insert_insert_eq, <- !app_assoc; cbn; auto 10.
Qed.

End SecondaryApplyConfig.

Section Joined.
Context {Api : ApiTypes}.
Context {I R : Type}.
Context `{!Implements notifier.Alertmanager I}.
Context `{!Implements remoteAlertmanager R}.
Variable wall : nat -> time.Time.

Local Abbreviation Secondary := (Sys RemoteSecondaryForkedAlertmanager I R).

End Joined.

Section SecondaryFrame.
Context {Api : ApiTypes}.
Context {I R : Type}.
Context `{!Implements notifier.Alertmanager I}.
Context `{!Implements remoteAlertmanager R}.
Variable wall : nat -> time.Time.

Local Abbreviation Secondary := (Sys RemoteSecondaryForkedAlertmanager I R).

(** Whatever [ApplyConfig] does, it either leaves the coordinator as it was
    or stores one of the clock readings it made in [lastSync]. *)
Lemma ApplyConfig_self (s s' : Secondary) (ctx : context_Context)
    (config : ptr AlertConfiguration) (e : error) :
  RemoteSecondary.ApplyConfig wall ctx config s = Some (e, s') ->
  (reads s <= reads s')%nat /\
  (self s' = self s \/
   exists n : nat, (reads s <= n < reads s')%nat /\
                   self s' = with_lastSync (self s) (wall n)).
Proof.
  revert s'. crack; intros s' E; injection E as _ <-; cbn; (split; [lia|]);
    eauto; right; eexists; (split; [|reflexivity]); lia.
Qed.

End SecondaryFrame.

(** ** The other methods of the secondary coordinator *)

Ltac unfold_methods :=
  unfold RemoteSecondary.serve, RemoteSecondary.SaveAndApplyConfig,
    RemoteSecondary.SaveAndApplyDefaultConfig, RemoteSecondary.GetStatus,
    RemoteSecondary.CreateSilence, RemoteSecondary.DeleteSilence,
    RemoteSecondary.GetSilence, RemoteSecondary.ListSilences,
    RemoteSecondary.GetAlerts, RemoteSecondary.GetAlertGroups,
    RemoteSecondary.PutAlerts, RemoteSecondary.GetReceivers,
    RemoteSecondary.TestReceivers, RemoteSecondary.TestTemplate,
    RemoteSecondary.CleanUp, RemoteSecondary.StopAndWait,
    RemoteSecondary.Ready.

Section SecondaryDelegation.
Context {Api : ApiTypes}.
Context {I R : Type}.
Context `{!Implements notifier.Alertmanager I}.
Context `{!Implements remoteAlertmanager R}.
Variable wall : nat -> time.Time.

Local Abbreviation Secondary := (Sys RemoteSecondaryForkedAlertmanager I R).

(** A method that is not [ApplyConfig] or [StopAndWait] is one call of the
    same method, with the same arguments, on the internal Alertmanager. *)
Lemma serve_local_only {T : Type} (m : notifier.Alertmanager T) (s : Secondary) :
  local_only m = true ->
  RemoteSecondary.serve wall m s = (fam <- this ;; call_internal (internal fam) m) s.
Proof. destruct m; intros Hm; try discriminate Hm; reflexivity. Qed.

Lemma serve_StopAndWait (s : Secondary) :
  RemoteSecondary.serve wall notifier.StopAndWait s =
  (fam <- this ;;
   call_internal (internal fam) notifier.StopAndWait ;;
   call_remote (remote fam) (Base notifier.StopAndWait)) s.
Proof. reflexivity. Qed.

(** No method but [ApplyConfig] writes to the coordinator or reads the
    clock. *)
Lemma serve_frame {T : Type} (m : notifier.Alertmanager T) (s s' : Secondary) (v : T) :
  not_ApplyConfig m = true ->
  RemoteSecondary.serve wall m s = Some (v, s') ->
  self s' = self s /\ reads s' = reads s.
Proof.
  intros Hm. revert s'.
  destruct m; try discriminate Hm; unfold_methods; crack;
    intros s' E; injection E as _ <-; auto.
Qed.

(** In every reachable state the logger is not nil and [lastSync] is not in
    the future. *)
Lemma reachable_inv (s : Secondary) :
  monotone wall -> after_zero wall ->
  reachable wall s ->
  log (self s) <> None /\ lastSync (self s) <= wall (reads s).
Proof.
  intros Hmono Hzero Hs. induction Hs as [cfg il rl fam s Hnew Hself|s s' T m v _ IH Hrun|s s' _ IH [Hself Hreads]].
  - unfold NewRemoteSecondaryForkedAlertmanager, Validate in Hnew.
    destruct (Logger cfg) as [name|] eqn:Hlog; [|discriminate Hnew].
    injection Hnew as <-. rewrite Hself. cbn. split; [congruence|].
    etrans; [exact Hzero|]. apply Hmono. lia.
  - destruct IH as [IHlog IHlast].
    destruct (not_ApplyConfig m) eqn:Hm.
    + destruct (serve_frame m s s' v Hm Hrun) as [-> ->]. auto.
    + destruct m; try discriminate Hm. cbn in Hrun.
      destruct (ApplyConfig_self wall s s' ctx config v Hrun)
        as [Hreads [-> | (n & Hn & ->)]]; cbn.
      * split; [assumption|]. etrans; [exact IHlast|]. now apply Hmono.
      * split; [assumption|]. apply Hmono. lia.
  - rewrite Hself. destruct IH as [IHlog IHlast]. split; [assumption|].
    etrans; [exact IHlast|]. now apply Hmono.
Qed.

(** [time.Since] of an instant that is not in the future is not negative. *)
Lemma Sub_nonneg (t u : time.Time) : u <= t -> 0 <= time.Sub t u.
Proof.
  intros Hle. unfold time.Sub, time.maxDuration, time.minDuration.
  destruct (Z.ltb_spec (2 ^ 63 - 1) (t - u)); [lia|].
  destruct (Z.ltb_spec (t - u) (- 2 ^ 63)); lia.
Qed.

(** [time.Since] grows with the clock. *)
Lemma Sub_mono (t t' u : time.Time) : t <= t' -> time.Sub t u <= time.Sub t' u.
Proof.
  intros Hle. unfold time.Sub, time.maxDuration, time.minDuration.
  destruct (Z.ltb_spec (2 ^ 63 - 1) (t - u)), (Z.ltb_spec (2 ^ 63 - 1) (t' - u)),
    (Z.ltb_spec (t - u) (- 2 ^ 63)), (Z.ltb_spec (t' - u) (- 2 ^ 63)); lia.
Qed.

End SecondaryDelegation.

(** ** The secondary coordinator: what the specification says *)

Section SecondaryClaims.
Context {Api : ApiTypes}.
Context {I R : Type}.
Context `{!Implements notifier.Alertmanager I}.
Context `{!Implements remoteAlertmanager R}.
Variable wall : nat -> time.Time.

Local Abbreviation Secondary := (Sys RemoteSecondaryForkedAlertmanager I R).

(** C3.  When the remote Alertmanager answers "not ready", [ApplyConfig]
    calls the remote [ApplyConfig] once, right after the [Ready] question,
    and makes no other call on the remote Alertmanager.  If that call
    returns nil, [lastSync] becomes the time read from the clock and nothing
    is logged; if it returns an error, the error is logged and the
    coordinator is left as it was. *)
Theorem not_ready_probes_remote_once (s : Secondary) (ctx : context_Context)
    (config : ptr AlertConfiguration) (name : string) (i : I) (r r1 r2 : R)
    (rerr : error) :
  wired s name i r ->
  invoke (Base notifier.Ready) r = (false, r1) ->
  invoke (Base (notifier.ApplyConfig ctx config)) r1 = (rerr, r2) ->
  exists (ierr : error) (s' : Secondary),
    RemoteSecondary.ApplyConfig wall ctx config s = Some (ierr, s') /\
    rcalls s' = rcalls s ++
      [Call (remote (self s)) (Base notifier.Ready) false;
       Call (remote (self s)) (Base (notifier.ApplyConfig ctx config)) rerr] /\
    match rerr with
    | None =>
        self s' = with_lastSync (self s) (wall (reads s)) /\
        logged s' = logged s
    | Some e =>
        self s' = self s /\
        logged s' = logged s ++
          [(name, log.Build_Entry log.LvlError
                    "Error applying config to the remote Alertmanager"
                    [("err", log.VErr e)])]
    end.
Proof.
  intros (Hlog & Hi & Hr) Hready Happly.
  destruct (invoke (notifier.ApplyConfig ctx config) i) as [ierr i'] eqn:Hint.
  destruct (ApplyConfig_probe wall s ctx config name i i' r r1 r2 ierr rerr)
    as (s' & Hrun & Hself & Hrcalls & _ & _ & _ & Hlogged & _); try assumption.
  exists ierr, s'. repeat split; try assumption.
  destruct rerr as [e|]; [now split|]. rewrite app_nil_r in Hlogged. now split.
Qed.

(** C4.  When the remote Alertmanager answers "ready" and the time since
    [lastSync] is less than [syncInterval], the only call on the remote
    Alertmanager is the [Ready] question: no upload and no remote
    [ApplyConfig].  The internal [ApplyConfig] runs, once, and its error is
    returned; the coordinator and the log are left as they were. *)
Theorem too_soon_only_local (s : Secondary) (ctx : context_Context)
    (config : ptr AlertConfiguration) (name : string) (i : I) (r r1 : R) :
  wired s name i r ->
  invoke (Base notifier.Ready) r = (true, r1) ->
  sinceLastSync wall s < syncInterval (self s) ->
  exists s' : Secondary,
    RemoteSecondary.ApplyConfig wall ctx config s =
      Some ((invoke (notifier.ApplyConfig ctx config) i).1, s') /\
    rcalls s' = rcalls s ++ [Call (remote (self s)) (Base notifier.Ready) true] /\
    icalls s' = icalls s ++
      [Call (internal (self s)) (notifier.ApplyConfig ctx config)
         (invoke (notifier.ApplyConfig ctx config) i).1] /\
    self s' = self s /\
    logged s' = logged s.
Proof.
  intros (Hlog & Hi & Hr) Hready Hsoon.
  destruct (invoke (notifier.ApplyConfig ctx config) i) as [ierr i'] eqn:Hint.
  destruct (ApplyConfig_too_soon wall s ctx config i i' r r1 ierr)
    as (s' & Hrun & Hself & Hrcalls & Hicalls & _ & _ & Hlogged & _);
    try assumption.
  exists s'. cbn. auto.
Qed.

(** C5.  [ApplyConfig] returns the error (or nil) that the internal
    Alertmanager's [ApplyConfig] returned, whatever the remote Alertmanager
    answers to [Ready], [ApplyConfig], [CompareAndSendConfiguration] and
    [CompareAndSendState]. *)
Theorem ApplyConfig_returns_internal_error (s : Secondary) (ctx : context_Context)
    (config : ptr AlertConfiguration) (name : string) (i : I) (r : R) :
  wired s name i r ->
  exists s' : Secondary,
    RemoteSecondary.ApplyConfig wall ctx config s =
      Some ((invoke (notifier.ApplyConfig ctx config) i).1, s') /\
    icalls s' = icalls s ++
      [Call (internal (self s)) (notifier.ApplyConfig ctx config)
         (invoke (notifier.ApplyConfig ctx config) i).1].
Proof.
  intros (Hlog & Hi & Hr).
  destruct (invoke (notifier.ApplyConfig ctx config) i) as [ierr i'] eqn:Hint.
  destruct (invoke (Base notifier.Ready) r) as [[|] r1] eqn:Hready.
  - destruct (Z.le_gt_cases (syncInterval (self s)) (sinceLastSync wall s))
      as [Hdue|Hsoon].
    + destruct (invoke (CompareAndSendConfiguration ctx config) r1)
        as [cfgErr r2] eqn:Hcfg.
      destruct (invoke (CompareAndSendState ctx) r2) as [stateErr r3] eqn:Hstate.
      destruct (ApplyConfig_due wall s ctx config name i i' r r1 r2 r3 ierr
                  cfgErr stateErr)
        as (s' & Hrun & _ & _ & Hicalls & _); try assumption.
      exists s'. auto.
    + destruct (ApplyConfig_too_soon wall s ctx config i i' r r1 ierr)
        as (s' & Hrun & _ & _ & Hicalls & _); try assumption.
      exists s'. auto.
  - destruct (invoke (Base (notifier.ApplyConfig ctx config)) r1)
      as [rerr r2] eqn:Happly.
    destruct (ApplyConfig_probe wall s ctx config name i i' r r1 r2 ierr rerr)
      as (s' & Hrun & _ & _ & Hicalls & _); try assumption.
    exists s'. auto.
Qed.

(** C2.  When the remote Alertmanager answers "ready" and the time since
    [lastSync] is at least [syncInterval] -- which is so on every call of a
    coordinator built by the constructor with a sync interval of 0 --
    [ApplyConfig] calls [CompareAndSendConfiguration] and then
    [CompareAndSendState] on the remote Alertmanager, whatever the first
    returns, and [lastSync] becomes the time read from the clock after the
    two calls if both returned nil; otherwise the coordinator is left as it
    was. *)
Theorem due_sync_uploads_both (s : Secondary) (ctx : context_Context)
    (config : ptr AlertConfiguration) (name : string) (i : I) (r r1 r2 r3 : R)
    (cfgErr stateErr : error) :
  wired s name i r ->
  invoke (Base notifier.Ready) r = (true, r1) ->
  syncInterval (self s) <= sinceLastSync wall s \/
    (syncInterval (self s) = 0 /\
     monotone wall /\ after_zero wall /\ reachable wall s) ->
  invoke (CompareAndSendConfiguration ctx config) r1 = (cfgErr, r2) ->
  invoke (CompareAndSendState ctx) r2 = (stateErr, r3) ->
  exists (ierr : error) (s' : Secondary),
    RemoteSecondary.ApplyConfig wall ctx config s = Some (ierr, s') /\
    rcalls s' = rcalls s ++
      [Call (remote (self s)) (Base notifier.Ready) true;
       Call (remote (self s)) (CompareAndSendConfiguration ctx config) cfgErr;
       Call (remote (self s)) (CompareAndSendState ctx) stateErr] /\
    self s' = match cfgErr, stateErr with
              | None, None => with_lastSync (self s) (wall (S (reads s)))
              | _, _ => self s
              end.
Proof.
  intros (Hlog & Hi & Hr) Hready Hdue Hcfg Hstate.
  assert (syncInterval (self s) <= sinceLastSync wall s) as Hdue'.
  { destruct Hdue as [Hdue|(Hzero & Hmono & Hafter & Hreach)]; [assumption|].
    rewrite Hzero. apply Sub_nonneg.
    now apply (reachable_inv wall s Hmono Hafter Hreach). }
  destruct (invoke (notifier.ApplyConfig ctx config) i) as [ierr i'] eqn:Hint.
  destruct (ApplyConfig_due wall s ctx config name i i' r r1 r2 r3 ierr
              cfgErr stateErr)
    as (s' & Hrun & Hself & Hrcalls & _); try assumption.
  exists ierr, s'. auto.
Qed.

(** C1.  When the remote Alertmanager answers "ready", the sync interval has
    elapsed and exactly one of the two uploads returns an error, [lastSync]
    is left as it was.  The next [ApplyConfig], if the remote Alertmanager
    answers "ready" again, therefore makes the two uploads again, whatever
    the sync interval is (the clock does not run backwards). *)
Theorem partial_failure_is_retried (s : Secondary) (ctx : context_Context)
    (config : ptr AlertConfiguration) (name : string) (i : I) (r r1 r2 r3 : R)
    (cfgErr stateErr : error) :
  monotone wall ->
  wired s name i r ->
  invoke (Base notifier.Ready) r = (true, r1) ->
  syncInterval (self s) <= sinceLastSync wall s ->
  invoke (CompareAndSendConfiguration ctx config) r1 = (cfgErr, r2) ->
  invoke (CompareAndSendState ctx) r2 = (stateErr, r3) ->
  (cfgErr <> None /\ stateErr = None) \/ (cfgErr = None /\ stateErr <> None) ->
  exists (ierr : error) (s1 : Secondary),
    RemoteSecondary.ApplyConfig wall ctx config s = Some (ierr, s1) /\
    lastSync (self s1) = lastSync (self s) /\
    forall (s2 : Secondary) (ctx' : context_Context)
        (config' : ptr AlertConfiguration) (name' : string) (i' : I)
        (r' r1' r2' r3' : R) (cfgErr' stateErr' : error),
      later s1 s2 ->
      wired s2 name' i' r' ->
      invoke (Base notifier.Ready) r' = (true, r1') ->
      invoke (CompareAndSendConfiguration ctx' config') r1' = (cfgErr', r2') ->
      invoke (CompareAndSendState ctx') r2' = (stateErr', r3') ->
      exists (ierr' : error) (s3 : Secondary),
        RemoteSecondary.ApplyConfig wall ctx' config' s2 = Some (ierr', s3) /\
        rcalls s3 = rcalls s2 ++
          [Call (remote (self s2)) (Base notifier.Ready) true;
           Call (remote (self s2)) (CompareAndSendConfiguration ctx' config')
             cfgErr';
           Call (remote (self s2)) (CompareAndSendState ctx') stateErr'].
Proof.
  intros Hmono (Hlog & Hi & Hr) Hready Hdue Hcfg Hstate Hone.
  destruct (invoke (notifier.ApplyConfig ctx config) i) as [ierr i1] eqn:Hint.
  destruct (ApplyConfig_due wall s ctx config name i i1 r r1 r2 r3 ierr
              cfgErr stateErr)
    as (s1 & Hrun & Hself & _ & _ & _ & _ & _ & Hreads); try assumption.
  assert (self s1 = self s /\ reads s1 = S (reads s)) as [Hself1 Hreads1].
  { destruct Hone as [[Hc ->]|[-> Hs]].
    - destruct cfgErr; [auto|congruence].
    - destruct stateErr; [auto|congruence]. }
  exists ierr, s1. split; [assumption|]. split; [now rewrite Hself1|].
  intros s2 ctx' config' name' i' r' r1' r2' r3' cfgErr' stateErr'
    [Hsame Hlater] (Hlog' & Hi' & Hr') Hready' Hcfg' Hstate'.
  destruct (invoke (notifier.ApplyConfig ctx' config') i') as [ierr' i2] eqn:Hint'.
  destruct (ApplyConfig_due wall s2 ctx' config' name' i' i2 r' r1' r2' r3' ierr'
              cfgErr' stateErr')
    as (s3 & Hrun' & _ & Hrcalls' & _); try assumption.
  - unfold sinceLastSync in *. rewrite Hsame, Hself1.
    etrans; [exact Hdue|]. apply Sub_mono, Hmono. lia.
  - exists ierr', s3. auto.
Qed.

(** C7.  Every method of the secondary coordinator other than [ApplyConfig]
    and [StopAndWait] makes one call, of the same method with the same
    arguments, on the internal Alertmanager and returns what that call
    returned; the remote Alertmanager receives no call and is not
    touched. *)
Theorem secondary_delegates_to_internal {T : Type} (m : notifier.Alertmanager T)
    (s : Secondary) (i : I) :
  local_only m = true ->
  internals s !! internal (self s) = Some i ->
  exists s' : Secondary,
    RemoteSecondary.serve wall m s = Some ((invoke m i).1, s') /\
    icalls s' = icalls s ++ [Call (internal (self s)) m (invoke m i).1] /\
    internals s' = <[internal (self s) := (invoke m i).2]> (internals s) /\
    rcalls s' = rcalls s /\
    remotes s' = remotes s.
Proof.
  intros Hm Hi. rewrite (serve_local_only wall m s Hm).
  destruct (invoke m i) as [v i'] eqn:Hint.
  unfold bind, this. erewrite call_internal_run by eassumption.
  eexists. split; [reflexivity|]. cbn. auto.
Qed.

(** C10.  Every method of the secondary coordinator other than
    [ApplyConfig] returns and leaves the coordinator -- [lastSync],
    [syncInterval], the logger and the two references -- as it was. *)
Theorem only_ApplyConfig_writes_coordinator {T : Type}
    (m : notifier.Alertmanager T) (s : Secondary) (i : I) (r : R) :
  not_ApplyConfig m = true ->
  internals s !! internal (self s) = Some i ->
  remotes s !! remote (self s) = Some r ->
  exists (v : T) (s' : Secondary),
    RemoteSecondary.serve wall m s = Some (v, s') /\
    self s' = self s.
Proof.
  intros Hm Hi Hr.
  assert (exists v s', RemoteSecondary.serve wall m s = Some (v, s'))
    as (v & s' & Hrun).
  { destruct (local_only m) eqn:Hlocal.
    - rewrite (serve_local_only wall m s Hlocal).
      destruct (invoke m i) as [v i'] eqn:Hint.
      unfold bind, this. erewrite call_internal_run by eassumption. eauto.
    - destruct m; try discriminate. rewrite serve_StopAndWait.
      destruct (invoke notifier.StopAndWait i) as [v i'] eqn:Hint.
      destruct (invoke (Base notifier.StopAndWait) r) as [v' r'] eqn:Hrem.
      run_go. eauto. }
  exists v, s'. split; [assumption|].
  now destruct (serve_frame wall m s s' v Hm Hrun).
Qed.

End SecondaryClaims.

(** C9.  The constructor returns no coordinator and the error "logger cannot
    be nil" exactly when the configured logger is nil; with a logger, it
    returns, without an error, the coordinator that holds this logger, the
    configured sync interval and the two references, its [lastSync] being
    the zero time. *)
Theorem constructor_validates_logger (cfg : RemoteSecondaryConfig)
    (internal remote : loc) :
  (Logger cfg = None <->
   NewRemoteSecondaryForkedAlertmanager cfg internal remote =
     (None, Some "logger cannot be nil")) /\
  (forall name : string,
     Logger cfg = Some name ->
     NewRemoteSecondaryForkedAlertmanager cfg internal remote =
       (Some {| log := Some name;
                internal := internal;
                remote := remote;
                lastSync := time.zero;
                syncInterval := SyncInterval cfg |},
        None)).
Proof.
  unfold NewRemoteSecondaryForkedAlertmanager, Validate.
  destruct (Logger cfg) as [lg|]; repeat split; try congruence.
Qed.

(** ** The primary coordinator *)

Section PrimaryClaims.
Context {Api : ApiTypes}.
Context {I R : Type}.
Context `{!Implements notifier.Alertmanager I}.
Context `{!Implements remoteAlertmanager R}.

Local Abbreviation Primary := (Sys RemotePrimary.RemotePrimaryForkedAlertmanager I R).

(** A business operation is one call of the same method, with the same
    arguments, on the remote Alertmanager. *)
Lemma primary_serve_business {T : Type} (m : notifier.Alertmanager T) (s : Primary) :
  business m = true ->
  RemotePrimary.serve m s =
    (fam <- this ;; call_remote (RemotePrimary.remote fam) (Base m)) s.
Proof. destruct m; intros Hm; try discriminate Hm; reflexivity. Qed.

(** C6.  In primary mode every business operation makes one call, of the
    same method with the same arguments, on the remote Alertmanager and
    returns what that call returned; the internal Alertmanager receives no
    call and is not touched, the clock is not read and nothing is logged.
    [CleanUp] makes one call on the internal Alertmanager and none on the
    remote one. *)
Theorem primary_routes_to_remote (s : Primary) (i : I) (r : R) :
  wired_primary s i r ->
  (forall (T : Type) (m : notifier.Alertmanager T),
     business m = true ->
     exists s' : Primary,
       RemotePrimary.serve m s = Some ((invoke (Base m) r).1, s') /\
       rcalls s' = rcalls s ++
         [Call (RemotePrimary.remote (self s)) (Base m) (invoke (Base m) r).1] /\
       remotes s' =
         <[RemotePrimary.remote (self s) := (invoke (Base m) r).2]> (remotes s) /\
       icalls s' = icalls s /\
       internals s' = internals s /\
       logged s' = logged s /\
       reads s' = reads s) /\
  (exists s' : Primary,
     RemotePrimary.serve notifier.CleanUp s = Some (tt, s') /\
     icalls s' = icalls s ++
       [Call (RemotePrimary.internal (self s)) notifier.CleanUp tt] /\
     rcalls s' = rcalls s /\
     remotes s' = remotes s).
Proof.
  intros [Hi Hr]. split.
  - intros T m Hm. rewrite (primary_serve_business m s Hm).
    destruct (invoke (Base m) r) as [v r'] eqn:Hrem.
    unfold bind, this. erewrite call_remote_run by eassumption.
    eexists. split; [reflexivity|]. cbn. auto 10.
  - destruct (invoke notifier.CleanUp i) as [[] i'] eqn:Hint.
    unfold RemotePrimary.serve, RemotePrimary.CleanUp, bind, this.
    erewrite call_internal_run by eassumption.
    eexists. split; [reflexivity|]. cbn. auto.
Qed.

(** C8.  In primary mode [Ready] returns true if and only if the internal
    Alertmanager and the remote Alertmanager both answer true to [Ready]. *)
Theorem primary_ready_iff_both (s : Primary) (i : I) (r : R) :
  wired_primary s i r ->
  exists (v : bool) (s' : Primary),
    RemotePrimary.Ready s = Some (v, s') /\
    (v = true <->
     (invoke notifier.Ready i).1 = true /\
     (invoke (Base notifier.Ready) r).1 = true).
Proof.
  intros [Hi Hr].
  destruct (invoke notifier.Ready i) as [vi i'] eqn:Hint.
  destruct (invoke (Base notifier.Ready) r) as [vr r'] eqn:Hrem.
  unfold RemotePrimary.Ready, bind, this.
  erewrite call_internal_run by eassumption. cbn.
  erewrite call_remote_run by eassumption. cbn.
  exists (vi && vr). eexists. split; [reflexivity|]. cbn.
  destruct vi, vr; cbn; intuition congruence.
Qed.

End PrimaryClaims.

(** ** The theorems on the test doubles *)

Section OnDoubles.
#[local] Existing Instance Mock.api.
#[local] Existing Instance Mock.as_internal.
#[local] Existing Instance Mock.as_remote.

Local Abbreviation ok := (Mock.double true None None None).
Local Abbreviation boom := (Some "test error").

(** *** The cases of [TestForkedAlertmanager_ModeRemoteSecondary/ApplyConfig] *)

(** "If the remote Alertmanager is not ready, ApplyConfig should be called
    on both Alertmanagers.  Calling ApplyConfig again with a ready remote
    Alertmanager before the sync interval is elapsed should result in the
    forked Alertmanager calling ApplyConfig on the internal Alertmanager." *)
Example test_not_ready_then_too_soon :
  Mock.observe
    ((e1 <- RemoteSecondary.ApplyConfig Mock.clock tt None ;;
      Mock.expect ok ok ;;
      e2 <- RemoteSecondary.ApplyConfig Mock.clock tt None ;;
      ret (e1, e2))
       (Mock.secondary (10 * time.Minute) ok (Mock.double false None None None)))
  = Some ((None, None), Mock.clock 0,
          [Call 2%nat (Base notifier.Ready) false;
           Call 2%nat (Base (notifier.ApplyConfig tt None)) None;
           Call 2%nat (Base notifier.Ready) true],
          [Call 1%nat (notifier.ApplyConfig tt None) None;
           Call 1%nat (notifier.ApplyConfig tt None) None]).
Proof. vm_compute. reflexivity. Qed.

(** "If the remote Alertmanager is ready and the sync interval has elapsed,
    the forked Alertmanager should sync state and configuration on the
    remote Alertmanager and call ApplyConfig only on the internal
    Alertmanager."  The sync interval is 0. *)
Example test_ready_and_due_twice :
  Mock.observe
    ((e1 <- RemoteSecondary.ApplyConfig Mock.clock tt None ;;
      e2 <- RemoteSecondary.ApplyConfig Mock.clock tt None ;;
      ret (e1, e2))
       (Mock.secondary 0 ok ok))
  = Some ((None, None), Mock.clock 3,
          [Call 2%nat (Base notifier.Ready) true;
           Call 2%nat (CompareAndSendConfiguration tt None) None;
           Call 2%nat (CompareAndSendState tt) None;
           Call 2%nat (Base notifier.Ready) true;
           Call 2%nat (CompareAndSendConfiguration tt None) None;
           Call 2%nat (CompareAndSendState tt) None],
          [Call 1%nat (notifier.ApplyConfig tt None) None;
           Call 1%nat (notifier.ApplyConfig tt None) None]).
Proof. vm_compute. reflexivity. Qed.

(** "An error in the remote Alertmanager should not be returned, but it
    should result in the forked Alertmanager trying to sync configuration
    and state in the next call to ApplyConfig, regardless of the sync
    interval."  Here the state upload fails and the sync interval is ten
    minutes. *)
Example test_remote_error_is_retried :
  Mock.observe
    ((e1 <- RemoteSecondary.ApplyConfig Mock.clock tt None ;;
      e2 <- RemoteSecondary.ApplyConfig Mock.clock tt None ;;
      ret (e1, e2))
       (Mock.secondary (10 * time.Minute) ok (Mock.double true None None boom)))
  = Some ((None, None), time.zero,
          [Call 2%nat (Base notifier.Ready) true;
           Call 2%nat (CompareAndSendConfiguration tt None) None;
           Call 2%nat (CompareAndSendState tt) boom;
           Call 2%nat (Base notifier.Ready) true;
           Call 2%nat (CompareAndSendConfiguration tt None) None;
           Call 2%nat (CompareAndSendState tt) boom],
          [Call 1%nat (notifier.ApplyConfig tt None) None;
           Call 1%nat (notifier.ApplyConfig tt None) None]).
Proof. vm_compute. reflexivity. Qed.

(** "An error in the internal Alertmanager should be returned." *)
Example test_internal_error_is_returned :
  Mock.observe
    (RemoteSecondary.ApplyConfig Mock.clock tt None
       (Mock.secondary 0 (Mock.double true boom None None)
          (Mock.double false None None None)))
  = Some (boom, Mock.clock 0,
          [Call 2%nat (Base notifier.Ready) false;
           Call 2%nat (Base (notifier.ApplyConfig tt None)) None],
          [Call 1%nat (notifier.ApplyConfig tt None) boom]).
Proof. vm_compute. reflexivity. Qed.

(** *** The theorems at the doubles *)

Lemma clock_monotone : monotone Mock.clock.
Proof. intros n m Hnm. unfold Mock.clock, time.Second. lia. Defined.

Lemma clock_after_zero : after_zero Mock.clock.
Proof. unfold after_zero, Mock.clock, time.zero, time.Second. lia. Defined.

(** The remote mock is not ready and its [ApplyConfig] fails: two calls on
    the remote mock, and the coordinator is as it was. *)
Lemma not_ready_probes_remote_once_witness :
  exists (ierr : error) s',
    RemoteSecondary.ApplyConfig Mock.clock tt None
      (Mock.secondary (10 * time.Minute) ok (Mock.double false boom None None))
      = Some (ierr, s') /\
    length (rcalls s') = 2%nat /\
    lastSync (self s') = time.zero /\
    length (logged s') = 1%nat.
Proof.
  destruct (not_ready_probes_remote_once Mock.clock
              (Mock.secondary (10 * time.Minute) ok
                 (Mock.double false boom None None))
              tt None "nop" ok (Mock.double false boom None None)
              (Mock.hit (Mock.double false boom None None))
              (Mock.hit (Mock.hit (Mock.double false boom None None)))
              boom)
    as (ierr & s' & Hrun & Hrcalls & Hself & Hlogged).
  - repeat split; reflexivity.
  - reflexivity.
  - reflexivity.
  - exists ierr, s'. rewrite Hrcalls, Hself, Hlogged. repeat split. exact Hrun.
Defined.

(** The coordinator was synchronised at the first reading of the clock, the
    sync interval is ten minutes and the clock shows one second more: the
    remote mock is asked whether it is ready and nothing else. *)
Lemma too_soon_only_local_witness :
  exists s',
    RemoteSecondary.ApplyConfig Mock.clock tt None
      (Mock.synced (10 * time.Minute) (Mock.clock 0) 1 ok ok)
      = Some (None, s') /\
    length (rcalls s') = 1%nat /\
    length (icalls s') = 1%nat /\
    lastSync (self s') = Mock.clock 0.
Proof.
  destruct (too_soon_only_local Mock.clock
              (Mock.synced (10 * time.Minute) (Mock.clock 0) 1 ok ok)
              tt None "nop" ok ok (Mock.hit ok))
    as (s' & Hrun & Hrcalls & Hicalls & Hself & _).
  - repeat split; reflexivity.
  - reflexivity.
  - reflexivity.
  - exists s'. rewrite Hrcalls, Hicalls, Hself. repeat split. exact Hrun.
Defined.

(** The internal mock fails and the remote mock is fine: the internal
    mock's error is returned. *)
Lemma ApplyConfig_returns_internal_error_witness :
  exists s',
    RemoteSecondary.ApplyConfig Mock.clock tt None
      (Mock.secondary 0 (Mock.double true boom None None)
         (Mock.double false None None None))
      = Some (boom, s').
Proof.
  destruct (ApplyConfig_returns_internal_error Mock.clock
              (Mock.secondary 0 (Mock.double true boom None None)
                 (Mock.double false None None None))
              tt None "nop" (Mock.double true boom None None)
              (Mock.double false None None None))
    as (s' & Hrun & _).
  - repeat split; reflexivity.
  - exists s'. exact Hrun.
Defined.

(** A fresh coordinator with a sync interval of 0 and a ready remote mock
    whose configuration upload fails: three calls on the remote mock and
    [lastSync] is still the zero time. *)
Lemma due_sync_uploads_both_witness :
  exists (ierr : error) s',
    RemoteSecondary.ApplyConfig Mock.clock tt None
      (Mock.secondary 0 ok (Mock.double true None boom None))
      = Some (ierr, s') /\
    length (rcalls s') = 3%nat /\
    lastSync (self s') = time.zero.
Proof.
  destruct (due_sync_uploads_both Mock.clock
              (Mock.secondary 0 ok (Mock.double true None boom None))
              tt None "nop" ok (Mock.double true None boom None)
              (Mock.hit (Mock.double true None boom None))
              (Mock.hit (Mock.hit (Mock.double true None boom None)))
              (Mock.hit (Mock.hit (Mock.hit (Mock.double true None boom None))))
              boom None)
    as (ierr & s' & Hrun & Hrcalls & Hself).
  - repeat split; reflexivity.
  - reflexivity.
  - right. split; [reflexivity|].
    split; [exact clock_monotone|]. split; [exact clock_after_zero|].
    eapply (reach_new Mock.clock
              {| SyncInterval := 0; Logger := Some "nop" |} 1%nat 2%nat);
      reflexivity.
  - reflexivity.
  - reflexivity.
  - exists ierr, s'. rewrite Hrcalls, Hself. repeat split. exact Hrun.
Defined.

(** The test "starting from a ready Alertmanager": the sync interval is ten
    minutes, the configuration upload fails; the second [ApplyConfig] makes
    the two uploads again. *)
Lemma partial_failure_is_retried_witness :
  exists (ierr ierr' : error) s1 s3,
    RemoteSecondary.ApplyConfig Mock.clock tt None
      (Mock.secondary (10 * time.Minute) ok (Mock.double true None boom None))
      = Some (ierr, s1) /\
    lastSync (self s1) = time.zero /\
    RemoteSecondary.ApplyConfig Mock.clock tt None s1 = Some (ierr', s3) /\
    length (rcalls s3) = 6%nat.
Proof.
  destruct (partial_failure_is_retried Mock.clock
              (Mock.secondary (10 * time.Minute) ok
                 (Mock.double true None boom None))
              tt None "nop" ok (Mock.double true None boom None)
              (Mock.hit (Mock.double true None boom None))
              (Mock.hit (Mock.hit (Mock.double true None boom None)))
              (Mock.hit (Mock.hit (Mock.hit (Mock.double true None boom None))))
              boom None)
    as (ierr & s1 & Hrun & Hlast & Hnext).
  - exact clock_monotone.
  - repeat split; reflexivity.
  - reflexivity.
  - vm_compute. discriminate.
  - reflexivity.
  - reflexivity.
  - left. split; [discriminate|reflexivity].
  - pose (s1c := match RemoteSecondary.ApplyConfig Mock.clock tt None
                          (Mock.secondary (10 * time.Minute) ok
                             (Mock.double true None boom None)) with
                  | Some (_, s) => s
                  | None => Mock.secondary 0 ok ok
                  end).
    assert (s1 = s1c) as -> by (unfold s1c; now rewrite Hrun).
    destruct (Hnext s1c tt None "nop" (Mock.hit ok)
                (Mock.hit (Mock.hit (Mock.hit
                   (Mock.double true None boom None))))
                (Mock.hit (Mock.hit (Mock.hit (Mock.hit
                   (Mock.double true None boom None)))))
                (Mock.hit (Mock.hit (Mock.hit (Mock.hit (Mock.hit
                   (Mock.double true None boom None))))))
                (Mock.hit (Mock.hit (Mock.hit (Mock.hit (Mock.hit (Mock.hit
                   (Mock.double true None boom None)))))))
                boom None)
      as (ierr' & s3 & Hrun' & Hrcalls').
    + split; [reflexivity|apply le_n].
    + repeat split; vm_compute; reflexivity.
    + reflexivity.
    + reflexivity.
    + reflexivity.
    + exists ierr, ierr', s1c, s3. split; [exact Hrun|].
      split; [exact Hlast|]. split; [exact Hrun'|].
      rewrite Hrcalls'. vm_compute. reflexivity.
Defined.

(** [GetSilence] in secondary mode: the internal mock's answer, and no call
    on the remote mock. *)
Lemma secondary_delegates_to_internal_witness :
  exists s',
    RemoteSecondary.serve Mock.clock (@notifier.GetSilence Mock.api tt "id")
      (Mock.secondary 0 ok ok) = Some (("id", None), s') /\
    length (icalls s') = 1%nat /\
    rcalls s' = [].
Proof.
  destruct (secondary_delegates_to_internal Mock.clock
              (@notifier.GetSilence Mock.api tt "id") (Mock.secondary 0 ok ok) ok)
    as (s' & Hrun & Hicalls & _ & Hrcalls & _).
  - reflexivity.
  - reflexivity.
  - exists s'. rewrite Hicalls, Hrcalls. repeat split. exact Hrun.
Defined.

(** [StopAndWait] in secondary mode leaves the coordinator as built. *)
Lemma only_ApplyConfig_writes_coordinator_witness :
  exists v s',
    RemoteSecondary.serve Mock.clock (@notifier.StopAndWait Mock.api)
      (Mock.secondary (10 * time.Minute) ok ok) = Some (v, s') /\
    self s' = self (Mock.secondary (10 * time.Minute) ok ok).
Proof.
  destruct (only_ApplyConfig_writes_coordinator Mock.clock
              (@notifier.StopAndWait Mock.api)
              (Mock.secondary (10 * time.Minute) ok ok) ok ok)
    as (v & s' & Hrun & Hself).
  - reflexivity.
  - reflexivity.
  - reflexivity.
  - exists v, s'. split; [exact Hrun|exact Hself].
Defined.

(** The configuration of the tests is accepted. *)
Lemma constructor_validates_logger_witness :
  NewRemoteSecondaryForkedAlertmanager
    {| SyncInterval := 10 * time.Minute; Logger := Some "nop" |} 1%nat 2%nat =
  (Some {| log := Some "nop"; internal := 1%nat; remote := 2%nat;
           lastSync := time.zero; syncInterval := 10 * time.Minute |},
   None).
Proof.
  apply (proj2 (constructor_validates_logger
                  {| SyncInterval := 10 * time.Minute; Logger := Some "nop" |}
                  1%nat 2%nat) "nop").
  reflexivity.
Defined.

(** [GetAlerts] in primary mode: the remote mock's answer, and no call on
    the internal mock. *)
Lemma primary_routes_to_remote_witness :
  exists s',
    RemotePrimary.serve (@notifier.GetAlerts Mock.api tt true true true ["test"] "test")
      (Mock.primary ok (Mock.double true None None boom))
      = Some ((["test"], None), s') /\
    length (rcalls s') = 1%nat /\
    icalls s' = [].
Proof.
  destruct (proj1 (primary_routes_to_remote
                     (Mock.primary ok (Mock.double true None None boom))
                     ok (Mock.double true None None boom)
                     ltac:(split; reflexivity))
              _ (@notifier.GetAlerts Mock.api tt true true true ["test"] "test")
              eq_refl)
    as (s' & Hrun & Hrcalls & _ & Hicalls & _).
  exists s'. rewrite Hrcalls, Hicalls. repeat split. exact Hrun.
Defined.

(** [Ready] in primary mode with an internal mock that is not ready. *)
Lemma primary_ready_iff_both_witness :
  exists s',
    RemotePrimary.Ready
      (Mock.primary (Mock.double false None None None) ok) = Some (false, s').
Proof.
  destruct (primary_ready_iff_both
              (Mock.primary (Mock.double false None None None) ok)
              (Mock.double false None None None) ok)
    as (v & s' & Hrun & Hiff).
  - split; reflexivity.
  - exists s'. destruct v; [|exact Hrun].
    destruct (proj1 Hiff eq_refl) as [Hi _]. discriminate Hi.
Defined.

End OnDoubles.

(** ** More on the secondary coordinator *)

Section SecondaryMore.
Context {Api : ApiTypes}.
Context {I R : Type}.
Context `{!Implements notifier.Alertmanager I}.
Context `{!Implements remoteAlertmanager R}.
Variable wall : nat -> time.Time.

Local Abbreviation Secondary := (Sys RemoteSecondaryForkedAlertmanager I R).

(** What one [ApplyConfig] of a wired coordinator does, whatever branch it
    takes: the calls it adds to the two records, the entries it adds to the
    log, the readings of the clock it makes. *)
Lemma ApplyConfig_wired (s : Secondary) (ctx : context_Context)
    (config : ptr AlertConfiguration) (name : string) (i : I) (r : R) :
  wired s name i r ->
  exists (s' : Secondary) (newr : list (Called remoteAlertmanager))
         (newl : list (string * log.Entry)),
    RemoteSecondary.ApplyConfig wall ctx config s =
      Some ((invoke (notifier.ApplyConfig ctx config) i).1, s') /\
    rcalls s' = rcalls s ++ newr /\
    icalls s' = icalls s ++
      [Call (internal (self s)) (notifier.ApplyConfig ctx config)
         (invoke (notifier.ApplyConfig ctx config) i).1] /\
    logged s' = logged s ++ newl /\
    (1 <= length newr <= 3)%nat /\
    (head newr ≫= (fun c => Some (is_Ready c))) = Some true /\
    errors_logged newl = errors_returned newr /\
    Forall (fun x => x.1 = name) newl /\
    (reads s <= reads s' <= reads s + 2)%nat.
Proof.
  intros (Hlog & Hi & Hr).
  destruct (invoke (notifier.ApplyConfig ctx config) i) as [ierr i'] eqn:Hint.
  destruct (invoke (Base notifier.Ready) r) as [[|] r1] eqn:Hready.
  - destruct (Z.le_gt_cases (syncInterval (self s)) (sinceLastSync wall s))
      as [Hdue|Hsoon].
    + destruct (invoke (CompareAndSendConfiguration ctx config) r1)
        as [cfgErr r2] eqn:Hcfg.
      destruct (invoke (CompareAndSendState ctx) r2) as [stateErr r3] eqn:Hstate.
      destruct (ApplyConfig_due wall s ctx config name i i' r r1 r2 r3 ierr
                  cfgErr stateErr)
        as (s' & Hrun & _ & Hrcalls & Hicalls & _ & _ & Hlogged & Hreads);
        try assumption.
      exists s'. eexists. eexists.
      split; [exact Hrun|]. split; [exact Hrcalls|]. split; [exact Hicalls|].
      split; [exact Hlogged|]. cbn.
      repeat split; try lia.
      * destruct cfgErr, stateErr; reflexivity.
      * unfold sync_log. destruct cfgErr, stateErr; repeat constructor.
      * destruct cfgErr, stateErr; lia.
      * destruct cfgErr, stateErr; lia.
    + destruct (ApplyConfig_too_soon wall s ctx config i i' r r1 ierr)
        as (s' & Hrun & _ & Hrcalls & Hicalls & _ & _ & Hlogged & Hreads);
        try assumption.
      exists s', [Call (remote (self s)) (Base notifier.Ready) true], [].
      rewrite app_nil_r. cbn. repeat split; try assumption; try lia.
      constructor.
  - destruct (invoke (Base (notifier.ApplyConfig ctx config)) r1)
      as [rerr r2] eqn:Happly.
    destruct (ApplyConfig_probe wall s ctx config name i i' r r1 r2 ierr rerr)
      as (s' & Hrun & _ & Hrcalls & Hicalls & _ & _ & Hlogged & Hreads);
      try assumption.
    exists s'. eexists. eexists.
    split; [exact Hrun|]. split; [exact Hrcalls|]. split; [exact Hicalls|].
    split; [exact Hlogged|]. cbn.
    repeat split; try lia.
    * destruct rerr; reflexivity.
    * destruct rerr; repeat constructor.
    * destruct rerr; lia.
    * destruct rerr; lia.
Qed.

(** X1.  One [ApplyConfig] makes at least one and at most three calls on the
    remote Alertmanager, the first of them the [Ready] question, exactly one
    call on the internal Alertmanager, and reads the clock at most twice. *)
Theorem ApplyConfig_calls_are_bounded (s : Secondary) (ctx : context_Context)
    (config : ptr AlertConfiguration) (name : string) (i : I) (r : R) :
  wired s name i r ->
  exists (ierr : error) (s' : Secondary)
         (newr : list (Called remoteAlertmanager)),
    RemoteSecondary.ApplyConfig wall ctx config s = Some (ierr, s') /\
    rcalls s' = rcalls s ++ newr /\
    (1 <= length newr <= 3)%nat /\
    (head newr ≫= (fun c => Some (is_Ready c))) = Some true /\
    icalls s' = icalls s ++
      [Call (internal (self s)) (notifier.ApplyConfig ctx config) ierr] /\
    (reads s <= reads s' <= reads s + 2)%nat.
Proof.
  intros Hwired.
  destruct (ApplyConfig_wired s ctx config name i r Hwired)
    as (s' & newr & newl & Hrun & Hrcalls & Hicalls & _ & Hlen & Hhead & _ & _
        & Hreads).
  eauto 10.
Qed.


(** X3.  [StopAndWait] stops the two Alertmanagers: one [StopAndWait] call on
    the internal one, one on the remote one and no other call; nothing is
    logged, the clock is not read and the coordinator is left as it was.  A
    logger is not needed. *)
Theorem StopAndWait_stops_both (s : Secondary) (i : I) (r : R) :
  internals s !! internal (self s) = Some i ->
  remotes s !! remote (self s) = Some r ->
  exists s' : Secondary,
    RemoteSecondary.StopAndWait s = Some (tt, s') /\
    icalls s' = icalls s ++
      [Call (internal (self s)) notifier.StopAndWait tt] /\
    rcalls s' = rcalls s ++
      [Call (remote (self s)) (Base notifier.StopAndWait) tt] /\
    internals s' =
      <[internal (self s) := (invoke notifier.StopAndWait i).2]> (internals s) /\
    remotes s' =
      <[remote (self s) := (invoke (Base notifier.StopAndWait) r).2]> (remotes s) /\
    self s' = self s /\
    logged s' = logged s /\
    reads s' = reads s.
Proof.
  intros Hi Hr.
  destruct (invoke notifier.StopAndWait i) as [[] i'] eqn:Hint.
  destruct (invoke (Base notifier.StopAndWait) r) as [[] r'] eqn:Hrem.
  unfold RemoteSecondary.StopAndWait. run_go.
  eexists. split; [reflexivity|]. cbn. auto 10.
Qed.

(** Over one step of its life the coordinator keeps its logger, its
    references and its sync interval, and [lastSync] either stays or becomes
    a reading of the clock made during the step. *)
Lemma serve_self {T : Type} (m : notifier.Alertmanager T) (s s' : Secondary)
    (v : T) :
  RemoteSecondary.serve wall m s = Some (v, s') ->
  (reads s <= reads s')%nat /\
  (self s' = self s \/
   exists n : nat, (reads s <= n < reads s')%nat /\
                   self s' = with_lastSync (self s) (wall n)).
Proof.
  intros Hrun. destruct (not_ApplyConfig m) eqn:Hm.
  - destruct (serve_frame wall m s s' v Hm Hrun) as [-> ->]. auto.
  - destruct m; try discriminate Hm. cbn in Hrun.
    exact (ApplyConfig_self wall s s' ctx config v Hrun).
Qed.

Lemma evolves_self (s s' : Secondary) :
  evolves wall s s' ->
  (reads s <= reads s')%nat /\
  (self s' = self s \/
   exists n : nat, (reads s <= n < reads s')%nat /\
                   self s' = with_lastSync (self s) (wall n)).
Proof.
  induction 1 as [|s1 s2 T m v _ IH Hrun|s1 s2 _ IH [Hself Hreads]].
  - auto.
  - destruct IH as [IHreads IH].
    destruct (serve_self m s1 s2 v Hrun) as [Hreads [->|(n & Hn & ->)]].
    + split; [lia|].
      destruct IH as [->|(n & Hn & ->)]; [auto|].
      right. exists n. split; [lia|reflexivity].
    + split; [lia|]. right. exists n. split; [lia|].
      destruct IH as [->|(n' & _ & ->)]; reflexivity.
  - destruct IH as [IHreads IH]. rewrite Hself. split; [lia|].
    destruct IH as [->|(n & Hn & ->)]; [auto|].
    right. exists n. split; [lia|reflexivity].
Qed.

(** X4.  Whatever methods are called on a coordinator, with whatever
    arguments and answers, its logger, its two references and its sync
    interval stay what they were, and [lastSync] is what it was or a time
    the coordinator read from the clock in between. *)
Theorem coordinator_fields_are_stable (s s' : Secondary) :
  evolves wall s s' ->
  log (self s') = log (self s) /\
  internal (self s') = internal (self s) /\
  remote (self s') = remote (self s) /\
  syncInterval (self s') = syncInterval (self s) /\
  (lastSync (self s') = lastSync (self s) \/
   exists n : nat, (reads s <= n < reads s')%nat /\
                   lastSync (self s') = wall n).
Proof.
  intros Hev. destruct (evolves_self s s' Hev) as [_ [->|(n & Hn & ->)]].
  - auto 10.
  - cbn. repeat split. right. eauto.
Qed.

(** X5.  With a clock that does not run backwards, [lastSync] never moves
    back: over any sequence of calls from a state in which [lastSync] is not
    in the future, it stays or grows, and it is not in the future
    afterwards. *)
Theorem lastSync_never_moves_back (s s' : Secondary) :
  monotone wall ->
  lastSync (self s) <= wall (reads s) ->
  evolves wall s s' ->
  lastSync (self s) <= lastSync (self s') <= wall (reads s').
Proof.
  intros Hmono Hpast Hev.
  destruct (evolves_self s s' Hev) as [Hreads [->|(n & Hn & ->)]]; cbn.
  - split; [lia|]. etrans; [exact Hpast|]. now apply Hmono.
  - split.
    + etrans; [exact Hpast|]. apply Hmono. lia.
    + apply Hmono. lia.
Qed.

(** X6.  After an [ApplyConfig] that made the two uploads with success, a
    later [ApplyConfig] that finds the remote Alertmanager ready while less
    than [syncInterval] has passed on the clock since the time stored in
    [lastSync] makes no upload: on the remote Alertmanager it only asks
    [Ready]. *)
Theorem successful_sync_is_not_repeated (s : Secondary) (ctx : context_Context)
    (config : ptr AlertConfiguration) (name : string) (i : I) (r r1 r2 r3 : R) :
  monotone wall ->
  wired s name i r ->
  invoke (Base notifier.Ready) r = (true, r1) ->
  syncInterval (self s) <= sinceLastSync wall s ->
  invoke (CompareAndSendConfiguration ctx config) r1 = (None, r2) ->
  invoke (CompareAndSendState ctx) r2 = (None, r3) ->
  exists (ierr : error) (s1 : Secondary),
    RemoteSecondary.ApplyConfig wall ctx config s = Some (ierr, s1) /\
    lastSync (self s1) = wall (S (reads s)) /\
    forall (s2 : Secondary) (ctx' : context_Context)
        (config' : ptr AlertConfiguration) (name' : string) (i' : I)
        (r' r1' : R),
      later s1 s2 ->
      wired s2 name' i' r' ->
      invoke (Base notifier.Ready) r' = (true, r1') ->
      wall (reads s2) - wall (S (reads s)) < syncInterval (self s) ->
      exists (ierr' : error) (s3 : Secondary),
        RemoteSecondary.ApplyConfig wall ctx' config' s2 = Some (ierr', s3) /\
        rcalls s3 = rcalls s2 ++
          [Call (remote (self s2)) (Base notifier.Ready) true] /\
        self s3 = self s2.
Proof.
  intros Hmono (Hlog & Hi & Hr) Hready Hdue Hcfg Hstate.
  destruct (invoke (notifier.ApplyConfig ctx config) i) as [ierr i1] eqn:Hint.
  destruct (ApplyConfig_due wall s ctx config name i i1 r r1 r2 r3 ierr
              None None)
    as (s1 & Hrun & Hself & _ & _ & _ & _ & _ & Hreads); try assumption.
  exists ierr, s1. split; [assumption|]. split; [now rewrite Hself|].
  intros s2 ctx' config' name' i' r' r1' [Hsame Hlater] (Hlog' & Hi' & Hr')
    Hready' Hsoon.
  destruct (invoke (notifier.ApplyConfig ctx' config') i') as [ierr' i2] eqn:Hint'.
  destruct (ApplyConfig_too_soon wall s2 ctx' config' i' i2 r' r1' ierr')
    as (s3 & Hrun' & Hself' & Hrcalls' & _); try assumption.
  - unfold sinceLastSync. rewrite Hsame, Hself. cbn.
    assert (wall (S (reads s)) <= wall (reads s2)) as Hle
      by (apply Hmono; lia).
    unfold time.Sub, time.maxDuration, time.minDuration.
    destruct (Z.ltb_spec (2 ^ 63 - 1) (wall (reads s2) - wall (S (reads s))));
      [lia|].
    destruct (Z.ltb_spec (wall (reads s2) - wall (S (reads s))) (- 2 ^ 63));
      lia.
  - exists ierr', s3. auto.
Qed.


(** X8.  The constructor accepts a negative sync interval, and it works as
    the interval 0: whatever was called on the coordinator before, an
    [ApplyConfig] that finds the remote Alertmanager ready makes the two
    uploads. *)
Theorem negative_interval_always_syncs (s : Secondary) (ctx : context_Context)
    (config : ptr AlertConfiguration) (name : string) (i : I) (r r1 r2 r3 : R)
    (cfgErr stateErr : error) :
  monotone wall -> after_zero wall ->
  reachable wall s ->
  syncInterval (self s) < 0 ->
  wired s name i r ->
  invoke (Base notifier.Ready) r = (true, r1) ->
  invoke (CompareAndSendConfiguration ctx config) r1 = (cfgErr, r2) ->
  invoke (CompareAndSendState ctx) r2 = (stateErr, r3) ->
  exists (ierr : error) (s' : Secondary),
    RemoteSecondary.ApplyConfig wall ctx config s = Some (ierr, s') /\
    rcalls s' = rcalls s ++
      [Call (remote (self s)) (Base notifier.Ready) true;
       Call (remote (self s)) (CompareAndSendConfiguration ctx config) cfgErr;
       Call (remote (self s)) (CompareAndSendState ctx) stateErr].
Proof.
  intros Hmono Hafter Hreach Hneg (Hlog & Hi & Hr) Hready Hcfg Hstate.
  destruct (invoke (notifier.ApplyConfig ctx config) i) as [ierr i'] eqn:Hint.
  destruct (ApplyConfig_due wall s ctx config name i i' r r1 r2 r3 ierr
              cfgErr stateErr)
    as (s' & Hrun & _ & Hrcalls & _); try assumption.
  - etrans; [apply Z.lt_le_incl; exact Hneg|]. apply Sub_nonneg.
    now apply (reachable_inv wall s Hmono Hafter Hreach).
  - exists ierr, s'. auto.
Qed.

End SecondaryMore.

(** ** The InfluxQL query path *)

Section InfluxRequest.
Context {O : Opaque} {E : Externals}.

(** X10.  [createRequest] returns a request and no error, or an error and no
    request, never both and never neither.  When it fails it has logged
    nothing and touched nothing; when it succeeds it has logged the URL of
    the request, once, at level Debug. *)
Theorem createRequest_request_or_error (ctx : Ctx) (logger : log.Logger)
    (dsInfo : models.DatasourceInfo) (queryStr retentionPolicy : string)
    (w w' : influxql.World) (res : ptr http.Request * error) :
  influxql.createRequest ctx logger dsInfo queryStr retentionPolicy w =
    Some (res, w') ->
  (exists err : string, res = (None, Some err) /\ w' = w) \/
  (exists (req : http.Request) (name : string),
     res = (Some req, None) /\ logger = Some name /\
     influxql.net w' = influxql.net w /\
     influxql.events w' = influxql.events w ++
       [influxql.Logged name influxql.Debug "Influxdb request"
          ["url"; URL_String (http.URL req)]]).
Proof.
  unfold influxql.createRequest.
  destruct (url_Parse (models.URL dsInfo)) as [[u|] [e|]]; cbn;
    try (intros [= <- <-]; left; eauto; fail); try discriminate.
  destruct (String.eqb (models.HTTPMode dsInfo) "GET") eqn:Hget.
  - destruct (http_NewRequestWithContext _ _ _ _) as [[req|] [e|]]; cbn;
      try (intros [= <- <-]; left; eauto; fail); try discriminate.
    destruct (negb _ && negb _); destruct logger as [name|]; cbn;
      try discriminate; intros [= <- <-]; right; eauto 10.
  - destruct (String.eqb (models.HTTPMode dsInfo) "POST") eqn:Hpost.
    + destruct (http_NewRequestWithContext _ _ _ _) as [[req|] [e|]]; cbn;
        try (intros [= <- <-]; left; eauto; fail); try discriminate.
      destruct (negb _ && negb _); destruct logger as [name|]; cbn;
        try discriminate; intros [= <- <-]; right; eauto 10.
    + cbn. intros [= <- <-]. left. eauto.
Qed.

(** What [createRequest] does when it succeeds: the URL of the data source
    parses, the HTTP mode is GET or POST, [http.NewRequestWithContext]
    returns a request [req0] for that method, the URL with "query" joined to
    its path and, for POST, the body [q=<query>]; the result is [req0] with
    new query parameters and, for POST, the content type. *)
Lemma createRequest_made (ctx : Ctx) (logger : log.Logger)
    (dsInfo : models.DatasourceInfo) (queryStr retentionPolicy : string)
    (w w' : influxql.World) (req : http.Request) :
  influxql.createRequest ctx logger dsInfo queryStr retentionPolicy w =
    Some ((Some req, None), w') ->
  exists (u : url.URL) (req0 : http.Request),
    url_Parse (models.URL dsInfo) = (Some u, None) /\
    (models.HTTPMode dsInfo = "GET" \/ models.HTTPMode dsInfo = "POST") /\
    http_NewRequestWithContext ctx (models.HTTPMode dsInfo)
      (URL_String {| url.Path := path_Join [url.Path u; "query"];
                     url.RawQuery := url.RawQuery u;
                     url.rest := url.rest u |})
      (if String.eqb (models.HTTPMode dsInfo) "GET" then None
       else Some (Values_Encode {[ "q" := [queryStr] ]})) = (Some req0, None) /\
    req =
      {| http.URL :=
           {| url.Path := url.Path (http.URL req0);
              url.RawQuery :=
                Values_Encode
                  (let params := url_ParseQuery (url.RawQuery (http.URL req0)) in
                   let params := <["db" := [models.DbName dsInfo]]> params in
                   let params := <["epoch" := ["ms"]]> params in
                   let params :=
                     if negb (String.eqb retentionPolicy "") &&
                        negb (String.eqb retentionPolicy "default")
                     then <["rp" := [retentionPolicy]]> params
                     else params in
                   if String.eqb (models.HTTPMode dsInfo) "GET"
                   then <["q" := [queryStr]]> params
                   else params);
              url.rest := url.rest (http.URL req0) |};
         http.Header :=
           if String.eqb (models.HTTPMode dsInfo) "GET" then http.Header req0
           else <[CanonicalMIMEHeaderKey "Content-type" :=
                    ["application/x-www-form-urlencoded"]]> (http.Header req0);
         http.rest := http.rest req0 |}.
Proof.
  unfold influxql.createRequest.
  destruct (url_Parse (models.URL dsInfo)) as [[u|] [e|]]; cbn;
    try discriminate.
  destruct (String.eqb (models.HTTPMode dsInfo) "GET") eqn:Hget.
  - apply String.eqb_eq in Hget. rewrite Hget.
    destruct (http_NewRequestWithContext _ _ _ _) as [[req0|] [e|]] eqn:Hnew;
      cbn; try discriminate.
    destruct (negb _ && negb _); destruct logger as [name|]; cbn;
      try discriminate; intros [= <- <-]; exists u, req0; auto 10.
  - destruct (String.eqb (models.HTTPMode dsInfo) "POST") eqn:Hpost;
      [|discriminate].
    apply String.eqb_eq in Hpost. rewrite Hpost.
    destruct (http_NewRequestWithContext _ _ _ _) as [[req0|] [e|]] eqn:Hnew;
      cbn; try discriminate.
    destruct (negb _ && negb _); destruct logger as [name|]; cbn;
      try discriminate; intros [= <- <-]; exists u, req0; auto 10.
Qed.

(** X11.  The query parameters of the request [createRequest] returns are
    those that were in the URL of the request [http.NewRequestWithContext]
    made, except that [db] is the database of the data source, [epoch] is
    "ms", [rp] is the retention policy unless that is empty or "default",
    and, for GET, [q] is the query.  So the retention policy "default" is
    never sent, and with POST the query is not put into the URL. *)
Theorem createRequest_params (ctx : Ctx) (logger : log.Logger)
    (dsInfo : models.DatasourceInfo) (queryStr retentionPolicy : string)
    (w w' : influxql.World) (req : http.Request) :
  influxql.createRequest ctx logger dsInfo queryStr retentionPolicy w =
    Some ((Some req, None), w') ->
  exists (target : string) (body : ptr string) (req0 : http.Request)
         (params : Values),
    http_NewRequestWithContext ctx (models.HTTPMode dsInfo) target body =
      (Some req0, None) /\
    url.RawQuery (http.URL req) = Values_Encode params /\
    url.Path (http.URL req) = url.Path (http.URL req0) /\
    params !! "db" = Some [models.DbName dsInfo] /\
    params !! "epoch" = Some ["ms"] /\
    params !! "rp" =
      (if decide (retentionPolicy = "" \/ retentionPolicy = "default")
       then url_ParseQuery (url.RawQuery (http.URL req0)) !! "rp"
       else Some [retentionPolicy]) /\
    params !! "q" =
      (if decide (models.HTTPMode dsInfo = "GET")
       then Some [queryStr]
       else url_ParseQuery (url.RawQuery (http.URL req0)) !! "q") /\
    forall k : string,
      k <> "db" -> k <> "epoch" -> k <> "rp" -> k <> "q" ->
      params !! k = url_ParseQuery (url.RawQuery (http.URL req0)) !! k.
Proof.
  intros Hrun.
  destruct (createRequest_made ctx logger dsInfo queryStr retentionPolicy
              w w' req Hrun) as (u & req0 & _ & Hmode & Hnew & ->).
  eexists _, _, req0. eexists. cbn. split; [exact Hnew|].
  split; [reflexivity|]. split; [reflexivity|].
  destruct (String.eqb_spec retentionPolicy "") as [Hempty|Hempty];
    destruct (String.eqb_spec retentionPolicy "default") as [Hdef|Hdef];
    destruct (String.eqb_spec (models.HTTPMode dsInfo) "GET") as [Hget|Hget];
    cbn;
    repeat match goal with
    | |- context [decide ?P] => destruct (decide P); try tauto; try congruence
    end;
    repeat split; intros; by simplify_map_eq.
Qed.

(** X12.  With POST the query travels in the body of the request, as the
    only value of [q], and the request gets the content type of a form;
    with GET there is no body and the headers are those of the new
    request.  In both cases the request is made for the URL of the data
    source with "query" joined to its path. *)
Theorem createRequest_body_and_header (ctx : Ctx) (logger : log.Logger)
    (dsInfo : models.DatasourceInfo) (queryStr retentionPolicy : string)
    (w w' : influxql.World) (req : http.Request) :
  influxql.createRequest ctx logger dsInfo queryStr retentionPolicy w =
    Some ((Some req, None), w') ->
  exists (u : url.URL) (req0 : http.Request),
    url_Parse (models.URL dsInfo) = (Some u, None) /\
    http_NewRequestWithContext ctx (models.HTTPMode dsInfo)
      (URL_String {| url.Path := path_Join [url.Path u; "query"];
                     url.RawQuery := url.RawQuery u;
                     url.rest := url.rest u |})
      (if decide (models.HTTPMode dsInfo = "POST")
       then Some (Values_Encode {[ "q" := [queryStr] ]})
       else None) = (Some req0, None) /\
    http.Header req =
      (if decide (models.HTTPMode dsInfo = "POST")
       then <[CanonicalMIMEHeaderKey "Content-type" :=
                ["application/x-www-form-urlencoded"]]> (http.Header req0)
       else http.Header req0) /\
    http.rest req = http.rest req0.
Proof.
  intros Hrun.
  destruct (createRequest_made ctx logger dsInfo queryStr retentionPolicy
              w w' req Hrun) as (u & req0 & Hparse & Hmode & Hnew & ->).
  exists u, req0. cbn. split; [exact Hparse|].
  destruct Hmode as [Hmode|Hmode]; rewrite Hmode in *; cbn in *;
    (destruct (decide _) as [Heq|Hne]; [try discriminate Heq|try congruence]);
    auto.
Qed.

End InfluxRequest.

Section InfluxQuery.
Context {O : Opaque} {E : Externals}.
#[local] Set Warnings "-clear-no-such-hyp".

Lemma tally_app (f : influxql.Event -> bool) (a b : list influxql.Event) :
  tally f (a ++ b) = (tally f a + tally f b)%nat.
Proof. unfold tally. now rewrite List.filter_app, length_app. Qed.

Lemma then_Some {A B : Type} (c : influxql.IO A) (k : A -> influxql.IO B)
    (w : influxql.World) (r : B * influxql.World) :
  influxql.then_ c k w = Some r ->
  exists (a : A) (w1 : influxql.World), c w = Some (a, w1) /\ k a w1 = Some r.
Proof.
  unfold influxql.then_. destruct (c w) as [[a w1]|]; [eauto|discriminate].
Qed.

(** The request [createRequest] returns does not depend on the world. *)
Lemma createRequest_pure (ctx : Ctx) (logger : log.Logger)
    (dsInfo : models.DatasourceInfo) (queryStr retentionPolicy : string)
    (w1 w1' w2 w2' : influxql.World) (res1 res2 : ptr http.Request * error) :
  influxql.createRequest ctx logger dsInfo queryStr retentionPolicy w1 =
    Some (res1, w1') ->
  influxql.createRequest ctx logger dsInfo queryStr retentionPolicy w2 =
    Some (res2, w2') ->
  res1 = res2.
Proof.
  unfold influxql.createRequest.
  destruct (url_Parse (models.URL dsInfo)) as [[u|] [e|]]; cbn;
    try discriminate; try (intros [= <- _] [= <- _]; reflexivity).
  destruct (String.eqb (models.HTTPMode dsInfo) "GET");
    [|destruct (String.eqb (models.HTTPMode dsInfo) "POST")];
    try (cbn; intros [= <- _] [= <- _]; reflexivity);
    (destruct (http_NewRequestWithContext _ _ _ _) as [[req0|] [e|]]; cbn;
       try discriminate; try (intros [= <- _] [= <- _]; reflexivity);
     destruct (negb _ && negb _); destruct logger as [name|]; cbn;
       try discriminate; intros [= <- _] [= <- _]; reflexivity).
Qed.

(** One [execute]: one round trip; if it brought a response, one span is
    started and ended and the body is closed, once; if not, nothing else
    happens. *)
Lemma execute_events (ctx : Ctx) (tracer : Tracer)
    (dsInfo : models.DatasourceInfo) (logger : log.Logger)
    (query : models.Query) (request : ptr http.Request) (streaming : bool)
    (w w' : influxql.World) (res : backend.DataResponse * error) :
  influxql.execute ctx tracer dsInfo logger query request streaming w =
    Some (res, w') ->
  exists new : list influxql.Event,
    influxql.events w' = influxql.events w ++ new /\
    head new = Some (influxql.RoundTrip request
                       (Do (models.HTTPClient dsInfo) request
                          (influxql.net w)).1.1
                       (Do (models.HTTPClient dsInfo) request
                          (influxql.net w)).1.2) /\
    tally is_RoundTrip new = 1%nat /\
    tally closes new = tally opens new /\
    tally starts_span new = tally ends_span new.
Proof.
  unfold influxql.execute, influxql.then_, influxql.outside, influxql.record,
    influxql.logf, influxql.pure, influxql.panic.
  cbn.
  destruct (Do (models.HTTPClient dsInfo) request (influxql.net w))
    as [[[res0|] [e|]] n]; cbn; try discriminate;
    try (intros [= <- <-]; cbn; eexists; split; [reflexivity|]; cbn; auto; fail).
  destruct streaming, logger as [name|]; cbn; try discriminate.
  - destruct (querydata_ResponseParse _ _ _ _) as [[resp|] n1]; cbn;
      destruct (Close _ _) as [[ce|] n2]; cbn; try discriminate;
      intros [= <- <-]; cbn; rewrite <- !app_assoc; cbn;
      eexists; (split; [reflexivity|]); cbn; auto.
  - destruct (buffered_ResponseParse _ _ _ _) as [[resp|] n1]; cbn;
      destruct (Close _ _) as [[ce|] n2]; cbn; try discriminate;
      intros [= <- <-]; cbn; rewrite <- !app_assoc; cbn;
      eexists; (split; [reflexivity|]); cbn; auto.
  - destruct (buffered_ResponseParse _ _ _ _) as [[resp|] n1]; cbn;
      destruct (Close _ _) as [[ce|] n2]; cbn; try discriminate;
      intros [= <- <-]; cbn; rewrite <- !app_assoc; cbn;
      eexists; (split; [reflexivity|]); cbn; auto.
Qed.

(** The loop of [Query], from any point on. *)
Lemma Query_loop_inv (ctx : Ctx) (tracer : Tracer)
    (dsInfo : models.DatasourceInfo) (req : backend.QueryDataRequest)
    (features : FeatureToggles) (logger : log.Logger)
    (queries : list backend.DataQuery) :
  forall (responses : gmap string backend.DataResponse)
         (w w' : influxql.World) (res : backend.QueryDataResponse * error),
  influxql.Query_loop ctx tracer dsInfo req features logger queries responses w
    = Some (res, w') ->
  exists new : list influxql.Event,
    influxql.events w' = influxql.events w ++ new /\
    tally closes new = tally opens new /\
    tally starts_span new = tally ends_span new /\
    (tally is_RoundTrip new <= length queries)%nat /\
    match res.2 with
    | None =>
        tally is_RoundTrip new = length queries /\
        exists m : gmap string backend.DataResponse,
          backend.Responses res.1 = Some m /\
          dom m = dom responses ∪ list_to_set (map backend.RefID queries)
    | Some _ => backend.Responses res.1 = None
    end.
Proof.
  induction queries as [|reqQuery queries IH]; intros responses w w' res; cbn.
  - intros [= <- <-]. exists []. rewrite app_nil_r. cbn.
    repeat split; try lia. exists responses. split; [reflexivity|]. set_solver.
  - destruct (QueryParse reqQuery) as [[query|] [e|]]; cbn; try discriminate;
      try (intros [= <- <-]; exists []; rewrite app_nil_r; cbn;
           repeat split; lia).
    destruct (Build query req) as [[rawQuery [e|]] query']; cbn;
      try (intros [= <- <-]; exists []; rewrite app_nil_r; cbn;
           repeat split; lia).
    intros Hloop.
    apply then_Some in Hloop as ([] & w1 & Hdev & Hloop).
    assert (exists l1, influxql.events w1 = influxql.events w ++ l1 /\
                       forall f, In f [closes; opens; starts_span; ends_span;
                                       is_RoundTrip] -> tally f l1 = 0%nat)
      as (l1 & Hl1 & Hz1).
    { destruct Dev.
      - destruct logger as [name|]; [|discriminate Hdev].
        injection Hdev as <-. eexists. split; [reflexivity|].
        intros f Hf. cbn in Hf.
        destruct Hf as [<-|[<-|[<-|[<-|[<-|[]]]]]]; reflexivity.
      - injection Hdev as <-. exists []. rewrite app_nil_r.
        split; [reflexivity|]. intros f _. reflexivity. }
    apply then_Some in Hloop as (created & w2 & Hcr & Hloop).
    destruct (createRequest_request_or_error _ _ _ _ _ _ _ _ Hcr)
      as [(e & -> & ->)|(request & name & -> & -> & Hnet & Hl2)].
    + injection Hloop as <- <-. exists l1. cbn.
      rewrite !Hz1 by (cbn; tauto). repeat split; try lia. exact Hl1.
    + apply then_Some in Hloop as (executed & w3 & Hex & Hloop).
      destruct (execute_events _ _ _ _ _ _ _ _ _ _ Hex)
        as (l3 & Hl3 & _ & Hrt & Hclose & Hspan).
      destruct (IH _ _ _ _ Hloop) as (l4 & Hl4 & Hclose4 & Hspan4 & Hle4 & Hres).
      eexists (l1 ++ [_] ++ l3 ++ l4).
      split.
      { rewrite Hl4, Hl3, Hl2, Hl1. now rewrite <- !app_assoc. }
      rewrite !tally_app. cbn [tally List.filter closes opens starts_span
                                ends_span is_RoundTrip length].
      rewrite !Hz1 by (cbn; tauto). cbn [length Nat.add].
      repeat split; try lia.
      destruct res.2.
      * exact Hres.
      * destruct Hres as (Hrt4 & m & Hm & Hdom). split; [lia|].
        exists m. split; [exact Hm|]. rewrite Hdom.
        destruct executed as [resp [e|]]; rewrite dom_insert_L; cbn;
          set_solver.
Qed.

(** X13.  When [Query] returns without an error, the response holds exactly
    one entry for each reference id of the request (a later query with the
    same id replaces the entry of an earlier one).  When it returns an
    error, the response holds no entry at all: what the queries before the
    failing one brought is dropped. *)
Theorem Query_response_keys (ctx : Ctx) (tracer : Tracer)
    (dsInfo : models.DatasourceInfo) (req : backend.QueryDataRequest)
    (features : FeatureToggles) (w w' : influxql.World)
    (response : backend.QueryDataResponse) (err : error) :
  influxql.Query ctx tracer dsInfo req features w = Some ((response, err), w') ->
  match err with
  | None =>
      exists m : gmap string backend.DataResponse,
        backend.Responses response = Some m /\ dom m = refIDs req
  | Some _ => backend.Responses response = None
  end.
Proof.
  intros Hrun.
  destruct (Query_loop_inv _ _ _ _ _ _ _ _ _ _ _ Hrun)
    as (new & _ & _ & _ & _ & Hres).
  cbn in Hres. destruct err; [exact Hres|].
  destruct Hres as (_ & m & Hm & Hdom). exists m. split; [exact Hm|].
  rewrite Hdom. unfold refIDs. set_solver.
Qed.

(** X14.  [Query] leaves no response body open and no span unfinished:
    among the events of one call there are as many closes as round trips
    that brought a response, and as many span ends as span starts.  It makes
    at most one round trip per query of the request, and exactly one per
    query when it returns without an error. *)
Theorem Query_closes_every_body (ctx : Ctx) (tracer : Tracer)
    (dsInfo : models.DatasourceInfo) (req : backend.QueryDataRequest)
    (features : FeatureToggles) (w w' : influxql.World)
    (response : backend.QueryDataResponse) (err : error) :
  influxql.Query ctx tracer dsInfo req features w = Some ((response, err), w') ->
  exists new : list influxql.Event,
    influxql.events w' = influxql.events w ++ new /\
    tally closes new = tally opens new /\
    tally starts_span new = tally ends_span new /\
    (tally is_RoundTrip new <= length (backend.Queries req))%nat /\
    (err = None -> tally is_RoundTrip new = length (backend.Queries req)).
Proof.
  intros Hrun.
  destruct (Query_loop_inv _ _ _ _ _ _ _ _ _ _ _ Hrun)
    as (new & Hnew & Hclose & Hspan & Hle & Hres).
  exists new. repeat split; try assumption.
  intros ->. cbn in Hres. tauto.
Qed.

(** The error of the loop does not depend on the world it runs in, nor on
    the responses collected before. *)
Lemma Query_loop_error (ctx : Ctx) (tracer : Tracer)
    (dsInfo : models.DatasourceInfo) (req : backend.QueryDataRequest)
    (features : FeatureToggles) (logger : log.Logger)
    (queries : list backend.DataQuery) :
  forall (responses1 responses2 : gmap string backend.DataResponse)
         (w1 w1' w2 w2' : influxql.World)
         (res1 res2 : backend.QueryDataResponse * error),
  influxql.Query_loop ctx tracer dsInfo req features logger queries
    responses1 w1 = Some (res1, w1') ->
  influxql.Query_loop ctx tracer dsInfo req features logger queries
    responses2 w2 = Some (res2, w2') ->
  res1.2 = res2.2.
Proof.
  induction queries as [|reqQuery queries IH];
    intros responses1 responses2 w1 w1' w2 w2' res1 res2; cbn.
  - intros [= <- _] [= <- _]. reflexivity.
  - destruct (QueryParse reqQuery) as [[query|] [e|]]; cbn; try discriminate;
      try (intros [= <- _] [= <- _]; reflexivity).
    destruct (Build query req) as [[rawQuery [e|]] query']; cbn;
      try (intros [= <- _] [= <- _]; reflexivity).
    intros H1 H2.
    apply then_Some in H1 as ([] & v1 & _ & H1).
    apply then_Some in H2 as ([] & v2 & _ & H2).
    apply then_Some in H1 as (c1 & u1 & Hc1 & H1).
    apply then_Some in H2 as (c2 & u2 & Hc2 & H2).
    rewrite (createRequest_pure _ _ _ _ _ _ _ _ _ _ _ Hc1 Hc2) in H1.
    destruct c2 as [request [e|]].
    + injection H1 as <- _. injection H2 as <- _. reflexivity.
    + apply then_Some in H1 as (x1 & t1 & _ & H1).
      apply then_Some in H2 as (x2 & t2 & _ & H2).
      exact (IH _ _ _ _ _ _ _ _ H1 H2).
Qed.

(** X15.  Whether [Query] returns an error, and which, does not depend on
    the network: a round trip that fails, a body that does not close, a
    response that does not parse never make [Query] fail.  Two calls with
    the same arguments that both return, return the same error, whatever
    the state of the network and the servers. *)
Theorem Query_error_ignores_network (ctx : Ctx) (tracer : Tracer)
    (dsInfo : models.DatasourceInfo) (req : backend.QueryDataRequest)
    (features : FeatureToggles) (w1 w1' w2 w2' : influxql.World)
    (res1 res2 : backend.QueryDataResponse * error) :
  influxql.Query ctx tracer dsInfo req features w1 = Some (res1, w1') ->
  influxql.Query ctx tracer dsInfo req features w2 = Some (res2, w2') ->
  res1.2 = res2.2.
Proof. apply Query_loop_error. Qed.

End InfluxQuery.

(** ** The further theorems at the doubles *)

Section MoreOnDoubles.
#[local] Existing Instance Mock.api.
#[local] Existing Instance Mock.as_internal.
#[local] Existing Instance Mock.as_remote.

Local Abbreviation ok := (Mock.double true None None None).
Local Abbreviation boom := (Some "test error").

Lemma ApplyConfig_calls_are_bounded_witness :
  exists (ierr : error) s',
    RemoteSecondary.ApplyConfig Mock.clock tt None (Mock.secondary 0 ok ok)
      = Some (ierr, s') /\
    (length (rcalls s') <= 3)%nat /\
    length (icalls s') = 1%nat.
Proof.
  destruct (ApplyConfig_calls_are_bounded Mock.clock (Mock.secondary 0 ok ok)
              tt None "nop" ok ok)
    as (ierr & s' & newr & Hrun & Hrcalls & Hlen & _ & Hicalls & _).
  - repeat split; reflexivity.
  - exists ierr, s'. rewrite Hrcalls, Hicalls. cbn.
    split; [exact Hrun|]. split; [lia|reflexivity].
Defined.


Lemma StopAndWait_stops_both_witness :
  exists s',
    RemoteSecondary.StopAndWait (Mock.secondary 0 ok ok) = Some (tt, s') /\
    icalls s' = [Call 1%nat (@notifier.StopAndWait Mock.api) tt] /\
    rcalls s' = [Call 2%nat (Base (@notifier.StopAndWait Mock.api)) tt].
Proof.
  destruct (StopAndWait_stops_both (Mock.secondary 0 ok ok) ok ok)
    as (s' & Hrun & Hicalls & Hrcalls & _).
  - reflexivity.
  - reflexivity.
  - exists s'. rewrite Hicalls, Hrcalls. repeat split. exact Hrun.
Defined.

Lemma coordinator_fields_are_stable_witness :
  exists (v : error) s1,
    RemoteSecondary.serve Mock.clock (@notifier.ApplyConfig Mock.api tt None)
      (Mock.secondary (10 * time.Minute) ok ok) = Some (v, s1) /\
    log (self s1) = Some "nop" /\
    syncInterval (self s1) = 10 * time.Minute.
Proof.
  eassert (RemoteSecondary.serve Mock.clock
             (@notifier.ApplyConfig Mock.api tt None)
             (Mock.secondary (10 * time.Minute) ok ok) = Some (_, _)) as Hrun
    by (vm_compute; reflexivity).
  destruct (coordinator_fields_are_stable Mock.clock
              (Mock.secondary (10 * time.Minute) ok ok) _
              (evolves_serve Mock.clock _ _ _ _ _ _
                 (evolves_here Mock.clock _) Hrun))
    as (Hlog & _ & _ & Hint & _).
  eexists _, _. split; [exact Hrun|]. split; [exact Hlog|exact Hint].
Defined.

Lemma lastSync_never_moves_back_witness :
  exists (v : error) s1,
    RemoteSecondary.serve Mock.clock (@notifier.ApplyConfig Mock.api tt None)
      (Mock.secondary (10 * time.Minute) ok ok) = Some (v, s1) /\
    time.zero <= lastSync (self s1).
Proof.
  eassert (RemoteSecondary.serve Mock.clock
             (@notifier.ApplyConfig Mock.api tt None)
             (Mock.secondary (10 * time.Minute) ok ok) = Some (_, _)) as Hrun
    by (vm_compute; reflexivity).
  destruct (lastSync_never_moves_back Mock.clock
              (Mock.secondary (10 * time.Minute) ok ok) _
              clock_monotone
              ltac:(vm_compute; discriminate)
              (evolves_serve Mock.clock _ _ _ _ _ _
                 (evolves_here Mock.clock _) Hrun))
    as (Hle & _).
  eexists _, _. split; [exact Hrun|exact Hle].
Defined.

Lemma successful_sync_is_not_repeated_witness :
  exists (ierr ierr' : error) s1 s3,
    RemoteSecondary.ApplyConfig Mock.clock tt None
      (Mock.secondary (10 * time.Minute) ok ok) = Some (ierr, s1) /\
    lastSync (self s1) = Mock.clock 1 /\
    RemoteSecondary.ApplyConfig Mock.clock tt None s1 = Some (ierr', s3) /\
    length (rcalls s3) = 4%nat.
Proof.
  destruct (successful_sync_is_not_repeated Mock.clock
              (Mock.secondary (10 * time.Minute) ok ok)
              tt None "nop" ok ok (Mock.hit ok) (Mock.hit (Mock.hit ok))
              (Mock.hit (Mock.hit (Mock.hit ok))))
    as (ierr & s1 & Hrun & Hlast & Hnext).
  - exact clock_monotone.
  - repeat split; reflexivity.
  - reflexivity.
  - vm_compute. discriminate.
  - reflexivity.
  - reflexivity.
  - pose (s1c := match RemoteSecondary.ApplyConfig Mock.clock tt None
                          (Mock.secondary (10 * time.Minute) ok ok) with
                  | Some (_, s) => s
                  | None => Mock.secondary 0 ok ok
                  end).
    assert (s1 = s1c) as -> by (unfold s1c; now rewrite Hrun).
    destruct (Hnext s1c tt None "nop" (Mock.hit ok)
                (Mock.hit (Mock.hit (Mock.hit ok)))
                (Mock.hit (Mock.hit (Mock.hit (Mock.hit ok)))))
      as (ierr' & s3 & Hrun' & Hrcalls' & _).
    + split; [reflexivity|apply le_n].
    + repeat split; vm_compute; reflexivity.
    + reflexivity.
    + vm_compute. reflexivity.
    + exists ierr, ierr', s1c, s3. split; [exact Hrun|].
      split; [exact Hlast|]. split; [exact Hrun'|].
      rewrite Hrcalls'. vm_compute. reflexivity.
Defined.


Lemma negative_interval_always_syncs_witness :
  exists (ierr : error) s',
    RemoteSecondary.ApplyConfig Mock.clock tt None
      (Mock.secondary (- time.Minute) ok ok) = Some (ierr, s') /\
    length (rcalls s') = 3%nat.
Proof.
  destruct (negative_interval_always_syncs Mock.clock
              (Mock.secondary (- time.Minute) ok ok)
              tt None "nop" ok ok (Mock.hit ok) (Mock.hit (Mock.hit ok))
              (Mock.hit (Mock.hit (Mock.hit ok))) None None)
    as (ierr & s' & Hrun & Hrcalls).
  - exact clock_monotone.
  - exact clock_after_zero.
  - eapply (reach_new Mock.clock
              {| SyncInterval := - time.Minute; Logger := Some "nop" |}
              1%nat 2%nat); reflexivity.
  - reflexivity.
  - repeat split; reflexivity.
  - reflexivity.
  - reflexivity.
  - reflexivity.
  - exists ierr, s'. rewrite Hrcalls. split; [exact Hrun|reflexivity].
Defined.

End MoreOnDoubles.

(** ** The theorems on the toy InfluxDB *)

Section OnInfluxMock.
#[local] Existing Instance InfluxMock.opaque.
#[local] Existing Instance InfluxMock.externals.

(** An HTTP mode that is not GET or POST: an error, and nothing happened. *)
Lemma createRequest_request_or_error_witness :
  exists w',
    influxql.createRequest tt influxql.glog (InfluxMock.datasource "get")
      "SELECT 1" "" (InfluxMock.world 0)
      = Some ((None, influxql.ErrInvalidHttpMode), w') /\
    w' = InfluxMock.world 0.
Proof.
  eassert (influxql.createRequest tt influxql.glog
             (InfluxMock.datasource "get") "SELECT 1" "" (InfluxMock.world 0)
           = Some ((None, influxql.ErrInvalidHttpMode), _)) as Hrun
    by (vm_compute; reflexivity).
  destruct (createRequest_request_or_error _ _ _ _ _ _ _ _ Hrun)
    as [(err & _ & Hw)|(req & name & Hres & _)].
  - eexists. split; [exact Hrun|exact Hw].
  - discriminate Hres.
Defined.

(** POST with the retention policy "default": [db] is the database of the
    data source and [rp] is not set. *)
Lemma createRequest_params_witness :
  exists req w' (params : Values),
    influxql.createRequest tt influxql.glog (InfluxMock.datasource "POST")
      "SELECT 1" "default" (InfluxMock.world 0) = Some ((Some req, None), w') /\
    url.RawQuery (http.URL req) = Values_Encode params /\
    params !! "db" = Some ["site"] /\
    params !! "rp" = None /\
    params !! "q" = None.
Proof.
  eassert (influxql.createRequest tt influxql.glog
             (InfluxMock.datasource "POST") "SELECT 1" "default"
             (InfluxMock.world 0) = Some ((Some _, None), _)) as Hrun
    by (vm_compute; reflexivity).
  destruct (createRequest_params _ _ _ _ _ _ _ _ Hrun)
    as (target & body & req0 & params & Hnew & Hraw & _ & Hdb & _ & Hrp & Hq
        & _).
  cbn in Hnew. injection Hnew as <-.
  eexists _, _, params. split; [exact Hrun|]. split; [exact Hraw|].
  split; [exact Hdb|]. split; [|].
  - rewrite Hrp. reflexivity.
  - rewrite Hq. reflexivity.
Defined.

(** POST: the query is in the body. *)
Lemma createRequest_body_and_header_witness :
  exists req w',
    influxql.createRequest tt influxql.glog (InfluxMock.datasource "POST")
      "SELECT 1" "default" (InfluxMock.world 0) = Some ((Some req, None), w') /\
    http.rest req = ("POST", Some "q=SELECT 1") /\
    http.Header req !! "Content-Type" =
      Some ["application/x-www-form-urlencoded"].
Proof.
  eassert (influxql.createRequest tt influxql.glog
             (InfluxMock.datasource "POST") "SELECT 1" "default"
             (InfluxMock.world 0) = Some ((Some _, None), _)) as Hrun
    by (vm_compute; reflexivity).
  destruct (createRequest_body_and_header _ _ _ _ _ _ _ _ Hrun)
    as (u & req0 & _ & Hnew & Hheader & Hrest).
  cbn in Hnew. injection Hnew as <-.
  eexists _, _. split; [exact Hrun|]. split.
  - rewrite Hrest. vm_compute. reflexivity.
  - rewrite Hheader. vm_compute. reflexivity.
Defined.

(** The queries A and B, of which the first meets a network that is down:
    no error, and an entry for A and for B. *)
Lemma Query_response_keys_witness :
  exists response w' (m : gmap string backend.DataResponse),
    influxql.Query tt tt (InfluxMock.datasource "GET") InfluxMock.request
      false (InfluxMock.world 0) = Some ((response, None), w') /\
    backend.Responses response = Some m /\
    dom m = refIDs InfluxMock.request.
Proof.
  eassert (influxql.Query tt tt (InfluxMock.datasource "GET")
             InfluxMock.request false (InfluxMock.world 0)
           = Some ((_, None), _)) as Hrun
    by (vm_compute; reflexivity).
  destruct (Query_response_keys _ _ _ _ _ _ _ _ _ Hrun) as (m & Hm & Hdom).
  eexists _, _, m. split; [exact Hrun|]. split; [exact Hm|exact Hdom].
Defined.

(** The same call: two round trips, one body opened and closed. *)
Lemma Query_closes_every_body_witness :
  exists response w',
    influxql.Query tt tt (InfluxMock.datasource "GET") InfluxMock.request
      false (InfluxMock.world 0) = Some ((response, None), w') /\
    tally closes (influxql.events w') = tally opens (influxql.events w') /\
    tally is_RoundTrip (influxql.events w') = 2%nat.
Proof.
  eassert (influxql.Query tt tt (InfluxMock.datasource "GET")
             InfluxMock.request false (InfluxMock.world 0)
           = Some ((_, None), _)) as Hrun
    by (vm_compute; reflexivity).
  destruct (Query_closes_every_body _ _ _ _ _ _ _ _ _ Hrun)
    as (new & Hnew & Hclose & _ & _ & Hrt).
  eexists _, _. split; [exact Hrun|]. rewrite Hnew. cbn [InfluxMock.world
    influxql.events app]. split; [exact Hclose|exact (Hrt eq_refl)].
Defined.

(** A request whose third query does not parse fails with the error of the
    parser whether the network is down (no round trip made yet) or up. *)
Lemma Query_error_ignores_network_witness :
  exists r1 w1' r2 w2',
    influxql.Query tt tt (InfluxMock.datasource "GET") InfluxMock.bad_request
      false (InfluxMock.world 0) = Some (r1, w1') /\
    influxql.Query tt tt (InfluxMock.datasource "GET") InfluxMock.bad_request
      false (InfluxMock.world 7) = Some (r2, w2') /\
    r1.2 = r2.2.
Proof.
  eassert (influxql.Query tt tt (InfluxMock.datasource "GET")
             InfluxMock.bad_request false (InfluxMock.world 0)
           = Some (_, _)) as Hrun1
    by (vm_compute; reflexivity).
  eassert (influxql.Query tt tt (InfluxMock.datasource "GET")
             InfluxMock.bad_request false (InfluxMock.world 7)
           = Some (_, _)) as Hrun2
    by (vm_compute; reflexivity).
  eexists _, _, _, _. split; [exact Hrun1|]. split; [exact Hrun2|].
  exact (Query_error_ignores_network _ _ _ _ _ _ _ _ _ _ _ Hrun1 Hrun2).
Defined.

End OnInfluxMock.
